(** * A shallow embedding of agoda_data_pipe

    The configuration layer ([config/sql_config.py], [config/config_manager.py])
    and the database layer ([pg_room.py]) of the pipeline, translated to
    Rocq.  Python values read from YAML are [yaml]; a call that may raise is a
    [py_result]; the database is a finite map from table names to tables,
    threaded as explicit state together with a log of the client's actions. *)

From Stdlib Require Import ZArith Lia.
From stdpp Require Import base gmap list strings.

Set Warnings "-register-all".
Open Scope Z_scope.

(** ** Python values and exceptions *)

(** A value produced by [yaml.safe_load]: mappings have string keys. *)
Inductive yaml : Type :=
| YNull
| YBool (b : bool)
| YInt (z : Z)
| YStr (s : string)
| YList (xs : list yaml)
| YMap (kvs : list (string * yaml)).

(** The exception classes the modelled code raises or catches. *)
Inductive py_exc : Type :=
| KeyError
| TypeError
| ValueError
| AttributeError
| DatabaseConfigError
| DatabaseError.

Inductive py_result (A : Type) : Type :=
| Ok (a : A)
| Raise (e : py_exc).
Arguments Ok {A} a.
Arguments Raise {A} e.

Definition py_bind {A B} (m : py_result A) (k : A -> py_result B) : py_result B :=
  match m with Ok a => k a | Raise e => Raise e end.

Notation "'let?' x := m 'in' k" := (py_bind m (fun x => k))
  (at level 200, x name, m at level 100, k at level 200).

(** Lookup in a mapping's key/value list (a dict's keys are unique, so the
    first binding is the only one). *)
Fixpoint assoc (k : string) (kvs : list (string * yaml)) : option yaml :=
  match kvs with
  | [] => None
  | (k', v) :: r => if String.eqb k k' then Some v else assoc k r
  end.

(** [v[k]] with a string key: dicts raise [KeyError] on a missing key, every
    other YAML value raises [TypeError] when indexed by a string. *)
Definition py_getitem (v : yaml) (k : string) : py_result yaml :=
  match v with
  | YMap kvs => match assoc k kvs with Some x => Ok x | None => Raise KeyError end
  | _ => Raise TypeError
  end.

(** [v[k]] with a key that is itself a YAML value (the environment name read
    from the file): a list or dict key is unhashable ([TypeError]); a scalar
    that is not a string is never a key of a string-keyed mapping. *)
Definition py_getitem_v (v : yaml) (k : yaml) : py_result yaml :=
  match v, k with
  | YMap _, YStr s => py_getitem v s
  | YMap _, (YList _ | YMap _) => Raise TypeError
  | YMap _, _ => Raise KeyError
  | _, _ => Raise TypeError
  end.

(** [v.get(k, default)]: only dicts have [get] ([AttributeError] otherwise). *)
Definition py_get (v : yaml) (k : string) (default : yaml) : py_result yaml :=
  match v with
  | YMap kvs => match assoc k kvs with Some x => Ok x | None => Ok default end
  | _ => Raise AttributeError
  end.

(** Python truthiness, as used by [if not config]. *)
Definition py_truthy (v : yaml) : bool :=
  match v with
  | YNull => false
  | YBool b => b
  | YInt z => negb (z =? 0)
  | YStr s => negb (String.eqb s "")
  | YList xs => negb (Nat.eqb (length xs) 0)
  | YMap kvs => negb (Nat.eqb (length kvs) 0)
  end.

(** A YAML value used as a Python [int] ([bool] is a subclass of [int]). *)
Definition py_int (v : yaml) : option Z :=
  match v with
  | YInt z => Some z
  | YBool b => Some (if b then 1 else 0)
  | _ => None
  end.

(** ** [range] and slicing *)

Fixpoint range_up (fuel : nat) (i stop step : Z) : list Z :=
  match fuel with
  | O => []
  | S f => if i <? stop then i :: range_up f (i + step) stop step else []
  end.

Fixpoint range_down (fuel : nat) (i stop step : Z) : list Z :=
  match fuel with
  | O => []
  | S f => if stop <? i then i :: range_down f (i + step) stop step else []
  end.

(** [range(start, stop, step)]: a zero step raises [ValueError]; every
    iteration moves at least one unit towards [stop], so [|stop - start|]
    iterations suffice. *)
Definition py_range (start stop step : Z) : py_result (list Z) :=
  let fuel := Z.to_nat (Z.abs (stop - start)) in
  if step =? 0 then Raise ValueError
  else if 0 <? step then Ok (range_up fuel start stop step)
  else Ok (range_down fuel start stop step).

(** A slice bound: negative indices count from the end, then clamp. *)
Definition slice_index (len : nat) (k : Z) : nat :=
  if k <? 0 then Z.to_nat (k + Z.of_nat len) else Nat.min (Z.to_nat k) len.

(** [l[i:j]] *)
Definition py_slice {A} (l : list A) (i j : Z) : list A :=
  let i' := slice_index (length l) i in
  let j' := slice_index (length l) j in
  firstn (j' - i')%nat (skipn i' l).

(** ** Records *)

(** A record to insert: a dict from column name to value. *)
Definition record := list (string * yaml).

(** [list(r.keys())] *)
Definition keys (r : record) : list string := map fst r.

(** [ThreadedDataManager._chunk_data]:
    [[data[i:i + chunk_size] for i in range(0, len(data), chunk_size)]]. *)
Definition _chunk_data (data : list record) (chunk_size : Z) : py_result (list (list record)) :=
  let? idxs := py_range 0 (Z.of_nat (length data)) chunk_size in
  Ok (map (fun i => py_slice data i (i + chunk_size)) idxs).

(** ** The database *)

(** A table: its columns, the comment attached to each column, its rows. *)
Record table := mk_table {
  tcols : list string;
  tcomments : gmap string string;
  trows : list record
}.

(** The client-side actions on the database, in the order they happen. *)
Inductive action : Type :=
| AConnect                      (* psycopg2.connect *)
| AGetconn (thread_id : nat)    (* pool.getconn in worker thread_id *)
| AExecute                      (* cursor.execute / execute_batch *)
| ACommit
| ARollback
| AClose                        (* conn.close *)
| APutconn.                     (* pool.putconn *)

(** The committed state of the database and the log of client actions. *)
Record world := mk_world {
  w_tables : gmap string table;
  w_log : list action
}.

Definition log_actions (w : world) (acts : list action) : world :=
  mk_world (w_tables w) (w_log w ++ acts).

(** What the database server and network decide, not the code: whether a
    connection can be opened (single-connection mode), whether the pool hands
    a connection to a given worker, and whether a value is accepted by a
    column's type and constraints. *)
Record dbenv := mk_dbenv {
  connect_ok : bool;
  getconn_ok : nat -> bool;
  value_ok : string -> yaml -> bool
}.

Fixpoint py_mapM {A B} (f : A -> py_result B) (l : list A) : py_result (list B) :=
  match l with
  | [] => Ok []
  | x :: r => let? y := f x in let? ys := py_mapM f r in Ok (y :: ys)
  end.

(** [cursor.mogrify] of one record against the placeholders [%(col)s]: a
    record missing a placeholder's key raises [KeyError]. *)
Definition bind_row (columns : list string) (r : record) : py_result record :=
  py_mapM (fun c => match assoc c r with Some v => Ok (c, v) | None => Raise KeyError end)
          columns.

(** [execute_batch(cursor, "INSERT INTO t (cols) VALUES (...)", rows,
    page_size=batch_size)] inside an open transaction, on the transaction's
    view [tables] of the database.  The pages are cut by [range(page_size)]:
    a page size that is not a positive [int] yields an empty page (or a
    [TypeError]) and psycopg2 refuses the empty query. *)
Definition execute_batch (e : dbenv) (tables : gmap string table) (t : string)
    (columns : list string) (rows : list record) (page_size : yaml)
    : py_result (gmap string table) :=
  match rows with
  | [] => Ok tables
  | _ :: _ =>
    match py_int page_size with
    | None => Raise TypeError
    | Some ps =>
      if ps <=? 0 then Raise DatabaseError else
      let? vals := py_mapM (bind_row columns) rows in
      match tables !! t with
      | None => Raise DatabaseError                          (* undefined table *)
      | Some tb =>
        if bool_decide (columns = []) then Raise DatabaseError   (* "INSERT INTO t ()" *)
        else if negb (forallb (fun c => bool_decide (c ∈ tcols tb)) columns)
        then Raise DatabaseError                             (* undefined column *)
        else if negb (forallb (fun row => forallb (fun cv => value_ok e cv.1 cv.2) row) vals)
        then Raise DatabaseError                             (* constraint violation *)
        else Ok (<[t := mk_table (tcols tb) (tcomments tb) (trows tb ++ vals)]> tables)
      end
    end
  end.

(** [DataManager.insert_raw_data].  [batch_size] is the result of
    [self.config_manager.get_batch_size()].  The whole list is inserted in
    one transaction of a fresh connection; any exception is caught, the
    connection rolled back and closed, and [False] returned. *)
Definition insert_raw_data (e : dbenv) (batch_size : py_result yaml)
    (room_list : list record) (target_table : string) (w : world) : py_result bool * world :=
  match room_list with
  | [] => (Ok true, w)
  | r0 :: _ =>
    let columns := keys r0 in
    if negb (connect_ok e) then (Ok false, w)
    else
      match (let? bs := batch_size in
             execute_batch e (w_tables w) target_table columns room_list bs) with
      | Ok tables' =>
          (Ok true, mk_world tables' (w_log w ++ [AConnect; AExecute; ACommit; AClose]))
      | Raise _ =>
          (Ok false, log_actions w [AConnect; ARollback; AClose])
      end
  end.

(** ** The threaded insert path *)

(** What a worker's future holds: the count returned by [_insert_chunk], or
    the exception it raised. *)
Inductive chunk_outcome : Type :=
| Inserted (n : nat)
| Failed (ex : py_exc).

Definition is_inserted (o : chunk_outcome) : bool :=
  match o with Inserted _ => true | Failed _ => false end.

(** [ThreadedDataManager._insert_chunk]: one pooled connection, one
    transaction.  On an error the method rolls back and re-raises, and
    [get_connection] rolls back once more before the connection goes back to
    the pool. *)
Definition _insert_chunk (e : dbenv) (batch_size : py_result yaml)
    (chunk : list record) (target_table : string) (thread_id : nat) (w : world)
    : chunk_outcome * world :=
  match chunk with
  | [] => (Inserted 0, w)
  | r0 :: _ =>
    match batch_size with
    | Raise ex => (Failed ex, w)
    | Ok bs =>
      if negb (getconn_ok e thread_id) then (Failed DatabaseError, w)
      else
        match execute_batch e (w_tables w) target_table (keys r0) chunk bs with
        | Ok tables' =>
            (Inserted (length chunk),
             mk_world tables' (w_log w ++ [AGetconn thread_id; AExecute; ACommit; APutconn]))
        | Raise ex =>
            (Failed ex,
             log_actions w [AGetconn thread_id; AExecute; ARollback; ARollback; APutconn])
        end
    end
  end.

(** The submitted chunks run to completion (leaving the [with
    ThreadPoolExecutor] block waits for all of them, also after an early
    [return False]).  Each runs in its own transaction, so the run is the
    sequence of those transactions in completion order [order], a list of
    chunk indices chosen by the scheduler. *)
Fixpoint run_chunks (e : dbenv) (batch_size : py_result yaml)
    (chunks : list (list record)) (target_table : string) (order : list nat) (w : world)
    : list (nat * chunk_outcome) * world :=
  match order with
  | [] => ([], w)
  | i :: rest =>
      let '(o, w1) := _insert_chunk e batch_size (nth i chunks []) target_table i w in
      let '(evs, w2) := run_chunks e batch_size chunks target_table rest w1 in
      ((i, o) :: evs, w2)
  end.

(** [for future in as_completed(future_to_chunk)]: add each count to
    [total_inserted]; the first exception returns [False].  The result pairs
    the returned boolean with the final value of [total_inserted]. *)
Fixpoint as_completed_loop (evs : list (nat * chunk_outcome)) (total_inserted : nat)
    : bool * nat :=
  match evs with
  | [] => (true, total_inserted)
  | (_, Inserted n) :: rest => as_completed_loop rest (total_inserted + n)
  | (_, Failed _) :: _ => (false, total_inserted)
  end.

(** [ThreadPoolExecutor(max_workers=...)] accepts [None] (a default pool)
    and positive integers; zero or a negative number raises [ValueError], a
    non-number [TypeError]. *)
Definition executor_accepts (max_workers : yaml) : bool :=
  match max_workers with
  | YNull => true
  | _ => match py_int max_workers with Some z => 0 <? z | None => false end
  end.

(** One run of [insert_raw_data_threaded]: the returned value, the final
    [total_inserted], the futures' outcomes in completion order, and the
    database afterwards. *)
Record threaded_run := mk_run {
  tr_result : py_result bool;
  tr_total : nat;
  tr_events : list (nat * chunk_outcome);
  tr_world : world
}.

(** [ThreadedDataManager.insert_raw_data_threaded].  [threading_config] is
    the result of [get_threading_config()]; it is read, indexed and chunked
    outside the [try], the executor and the result loop inside it. *)
Definition insert_raw_data_threaded_run (e : dbenv) (threading_config : py_result yaml)
    (batch_size : py_result yaml) (order : list nat)
    (room_list : list record) (target_table : string) (w : world) : threaded_run :=
  match room_list with
  | [] => mk_run (Ok true) 0 [] w
  | _ :: _ =>
    match (let? tc := threading_config in
           let? max_workers := py_getitem tc "max_workers" in
           let? chunk_size := py_getitem tc "chunk_size" in
           match py_int chunk_size with
           | None => Raise TypeError
           | Some cs => let? chunks := _chunk_data room_list cs in Ok (max_workers, chunks)
           end) with
    | Raise ex => mk_run (Raise ex) 0 [] w
    | Ok (max_workers, chunks) =>
      if negb (executor_accepts max_workers) then mk_run (Ok false) 0 [] w
      else
        let '(evs, w') := run_chunks e batch_size chunks target_table order w in
        let '(b, total) := as_completed_loop evs 0 in
        mk_run (Ok b) total evs w'
    end
  end.

Definition insert_raw_data_threaded (e : dbenv) (threading_config : py_result yaml)
    (batch_size : py_result yaml) (order : list nat)
    (room_list : list record) (target_table : string) (w : world) : py_result bool :=
  tr_result (insert_raw_data_threaded_run e threading_config batch_size order
               room_list target_table w).

(** Rows currently committed in table [t]. *)
Definition row_count (w : world) (t : string) : nat :=
  match w_tables w !! t with Some tb => length (trows tb) | None => 0 end.

(** ** Table creation *)

(** The columns of [CREATE TABLE IF NOT EXISTS {table_name} (...)]. *)
Definition agoda_columns : list string :=
  ["id"; "room_id"; "check_in_date"; "room_name"; "room_enname"; "area";
   "capacity"; "bed_type"; "smoking"; "price"; "breakfast"; "cancel";
   "currency"; "hotel_name"; "defaultname"; "distance_m"; "rating";
   "longitude"; "latitude"; "hop_hotel_name"; "hop_hotel_id";
   "created_at"; "updated_at"].

(** [comment_sqls]: [COMMENT ON COLUMN {table_name}.col IS 'text'], as
    (column, text) pairs in the order the code issues them. *)
Definition comment_sqls : list (string * string) :=
  [("id", "主键ID"); ("room_id", "房型ID"); ("check_in_date", "入住日期");
   ("room_name", "房型名称"); ("room_enname", "房型英文名称"); ("area", "面积");
   ("capacity", "入住人数"); ("bed_type", "床型"); ("smoking", "是否禁烟");
   ("price", "价格"); ("breakfast", "是否含早"); ("cancel", "是否可取消");
   ("currency", "币种"); ("hotel_name", "酒店名称"); ("defaultname", "默认名称");
   ("distance_m", "距离（米）"); ("rating", "评分"); ("longitude", "经度");
   ("latitude", "纬度"); ("hop_hotel_name", "HOP酒店名称");
   ("hop_hotel_id", "HOP酒店ID"); ("created_at", "创建时间");
   ("updated_at", "更新时间")].

(** [CREATE TABLE IF NOT EXISTS]: nothing happens when the name is taken. *)
Definition create_table_if_not_exists (t : string) (tables : gmap string table)
    : gmap string table :=
  match tables !! t with
  | Some _ => tables
  | None => <[t := mk_table agoda_columns ∅ []]> tables
  end.

(** [COMMENT ON COLUMN t.c IS 'text']: fails on a missing table or column. *)
Definition comment_on_column (t c text : string) (tables : gmap string table)
    : py_result (gmap string table) :=
  match tables !! t with
  | None => Raise DatabaseError
  | Some tb =>
      if bool_decide (c ∈ tcols tb)
      then Ok (<[t := mk_table (tcols tb) (<[c := text]> (tcomments tb)) (trows tb)]> tables)
      else Raise DatabaseError
  end.

(** [for comment_sql in comment_sqls: cursor.execute(comment_sql)] *)
Fixpoint run_comments (t : string) (cs : list (string * string)) (tables : gmap string table)
    : py_result (gmap string table) :=
  match cs with
  | [] => Ok tables
  | (c, text) :: rest =>
      let? tables' := comment_on_column t c text tables in run_comments t rest tables'
  end.

(** [TableManager.create_table].  [cfg_table_name] is the result of
    [self.config_manager.get_table_name()], called (outside the [try]) only
    when no name is given.  The DDL and the comments run in one transaction
    of a fresh connection; any exception rolls it back and yields [False]. *)
Definition create_table (e : dbenv) (cfg_table_name : py_result string)
    (table_name : option string) (w : world) : py_result bool * world :=
  match (match table_name with Some t => Ok t | None => cfg_table_name end) with
  | Raise ex => (Raise ex, w)
  | Ok t =>
    if negb (connect_ok e) then (Ok false, w)
    else
      match run_comments t comment_sqls (create_table_if_not_exists t (w_tables w)) with
      | Ok tables' =>
          (Ok true, mk_world tables'
             (w_log w ++ AConnect :: repeat AExecute (S (length comment_sqls))
                     ++ [ACommit; AClose]))
      | Raise _ => (Ok false, log_actions w [AConnect; ARollback; AClose])
      end
  end.

(** ** [config/sql_config.py]: the database configuration loader *)

(** [config.yml] as [_load_yaml_config] finds it. *)
Inductive config_file : Type :=
| FileMissing                 (* [self.config_path.exists()] is false *)
| FileInvalid                 (* [yaml.safe_load] raises [YAMLError] *)
| FileYaml (v : yaml).        (* the parsed document *)

(** A configuration object: its identity (the index of the read that built
    it) and its content. *)
Record config_obj := mk_obj { obj_id : nat; obj_val : yaml }.

(** A [DatabaseConfigLoader]: [_config_cache] and the number of times the
    file has been read so far. *)
Record loader := mk_loader {
  _config_cache : option config_obj;
  reads : nat
}.

Definition initial_loader : loader := mk_loader None 0.

(** [_load_yaml_config]: every failure is re-raised as
    [DatabaseConfigError]; an empty or falsy document is refused. *)
Definition _load_yaml_config (file : config_file) (st : loader) : py_result config_obj * loader :=
  match file with
  | FileMissing => (Raise DatabaseConfigError, st)
  | FileInvalid => (Raise DatabaseConfigError, mk_loader (_config_cache st) (S (reads st)))
  | FileYaml v =>
      let st' := mk_loader (_config_cache st) (S (reads st)) in
      if py_truthy v then (Ok (mk_obj (reads st) v), st') else (Raise DatabaseConfigError, st')
  end.

(** [get_config(force_reload)]: the file is read when nothing is cached
    or a reload is forced; a failed read leaves the cache as it was. *)
Definition get_config (force_reload : bool) (file : config_file) (st : loader)
    : py_result config_obj * loader :=
  match _config_cache st, force_reload with
  | Some o, false => (Ok o, st)
  | _, _ =>
      match _load_yaml_config file st with
      | (Ok o, st') => (Ok o, mk_loader (Some o) (reads st'))
      | (Raise ex, st') => (Raise ex, st')
      end
  end.

(** [get_current_environment]: [config['environment']['current']], with a
    [KeyError] answered by ['development']. *)
Definition get_current_environment (file : config_file) (st : loader) : py_result yaml * loader :=
  match get_config false file st with
  | (Raise ex, st1) => (Raise ex, st1)
  | (Ok o, st1) =>
      match (let? env := py_getitem (obj_val o) "environment" in py_getitem env "current") with
      | Ok v => (Ok v, st1)
      | Raise KeyError => (Ok (YStr "development"), st1)
      | Raise ex => (Raise ex, st1)
      end
  end.

(** [get_database_config(environment)]: [config['database'][environment]],
    a [KeyError] turned into [DatabaseConfigError]. *)
Definition get_database_config (file : config_file) (st : loader) (environment : option yaml)
    : py_result yaml * loader :=
  match get_config false file st with
  | (Raise ex, st1) => (Raise ex, st1)
  | (Ok o, st1) =>
      let '(env, st2) := match environment with
                         | Some env => (Ok env, st1)
                         | None => get_current_environment file st1
                         end in
      match env with
      | Raise ex => (Raise ex, st2)
      | Ok env =>
          match (let? db := py_getitem (obj_val o) "database" in py_getitem_v db env) with
          | Ok c => (Ok c, st2)
          | Raise KeyError => (Raise DatabaseConfigError, st2)
          | Raise ex => (Raise ex, st2)
          end
      end
  end.

(** The module function [load_config(environment)] on the global loader. *)
Definition load_config (file : config_file) (st : loader) (environment : option string)
    : py_result yaml * loader :=
  get_database_config file st (option_map YStr environment).

(** The module function [reload_config()]. *)
Definition reload_config (file : config_file) (st : loader) : loader :=
  (get_config true file st).2.

(** Every cached object was built by an earlier read. *)
Definition loader_ok (st : loader) : Prop :=
  forall o, _config_cache st = Some o -> (obj_id o < reads st)%nat.

(** ** [config/config_manager.py]: application settings *)

(** In each accessor, [config] is the result of [self.load_config()]. *)

(** [get_batch_size]: [config.get('app', {}).get('batch_size', 100)] *)
Definition get_batch_size (config : yaml) : py_result yaml :=
  let? app := py_get config "app" (YMap []) in py_get app "batch_size" (YInt 100).

Definition default_threading_config : yaml :=
  YMap [("max_workers", YInt 4); ("chunk_size", YInt 1000); ("enable_threading", YBool false)].

(** [get_threading_config] *)
Definition get_threading_config (config : yaml) : py_result yaml :=
  let? app := py_get config "app" (YMap []) in py_get app "threading" default_threading_config.

(** [is_threading_enabled]:
    [self.get_threading_config().get('enable_threading', False)] *)
Definition is_threading_enabled (config : yaml) : py_result yaml :=
  let? tc := get_threading_config config in py_get tc "enable_threading" (YBool false).

(** ** [get_connection]: the two connection context managers *)

Module ConnectionScope.

(** Python exceptions by where they sit in the hierarchy: subclasses of
    [Exception], or [BaseException] subclasses outside it (such as
    [KeyboardInterrupt], [SystemExit]).  [exc_tag] tells two exceptions
    apart. *)
Inductive exc_class : Type := StdException | BaseOnly.

Record exc := mk_exc { exc_kind : exc_class; exc_tag : nat }.

Definition caught_by_except_Exception (x : exc) : bool :=
  match exc_kind x with StdException => true | BaseOnly => false end.

(** How a call ends. *)
Inductive outcome : Type :=
| Returned
| Raised (x : exc).

(** What happens to connection [c], in order. *)
Inductive event : Type :=
| Acquired (c : nat)          (* getconn() / psycopg2.connect() returned c *)
| BodyRan (c : nat)           (* the with-block ran with c *)
| RollbackCalled (c : nat)    (* conn.rollback() *)
| Released (c : nat).         (* putconn(c) / c.close() *)

(** The [try]/[except Exception]/[finally] shared by both context managers,
    from the statement that obtains the connection on: [acquire] is the
    connection obtained or the exception raised while obtaining it, [body] how
    the with-block ends, [rollback] how [conn.rollback()] ends.  The
    generator's [finally] releases the connection ([putconn] or [close]),
    which the model takes to return normally. *)
Definition guarded_use (acquire : nat + exc) (body : nat -> outcome) (rollback : outcome)
    : list event * outcome :=
  match acquire with
  | inr x => ([], Raised x)                   (* conn is None: no rollback, no release *)
  | inl c =>
      match body c with
      | Returned => ([Acquired c; BodyRan c; Released c], Returned)
      | Raised x =>
          if caught_by_except_Exception x then
            match rollback with
            | Returned => ([Acquired c; BodyRan c; RollbackCalled c; Released c], Raised x)
            | Raised r => ([Acquired c; BodyRan c; RollbackCalled c; Released c], Raised r)
            end
          else ([Acquired c; BodyRan c; Released c], Raised x)
      end
  end.

(** [ConnectionPoolManager.get_connection]: [_initialize_pool()] runs
    before the [try]; [getconn()] inside it. *)
Definition pool_get_connection (initialize_pool : outcome) (getconn : nat + exc)
    (body : nat -> outcome) (rollback : outcome) : list event * outcome :=
  match initialize_pool with
  | Raised x => ([], Raised x)
  | Returned => guarded_use getconn body rollback
  end.

(** [DatabaseManager.get_connection]: [_get_db_config()] and
    [psycopg2.connect()] both run inside the [try]. *)
Definition single_get_connection (get_db_config : outcome) (connect : nat + exc)
    (body : nat -> outcome) (rollback : outcome) : list event * outcome :=
  let acquire := match get_db_config with Raised x => inr x | Returned => connect end in
  guarded_use acquire body rollback.

Definition keyboard_interrupt : exc := mk_exc BaseOnly 0.

End ConnectionScope.

(** ** Observations used by the statements *)

(** The count a future contributes to [total_inserted]. *)
Definition count_of (o : chunk_outcome) : nat :=
  match o with Inserted n => n | Failed _ => 0 end.

(** Rows of table [t] in a map of tables. *)
Definition rows_in (tables : gmap string table) (t : string) : nat :=
  match tables !! t with Some tb => length (trows tb) | None => 0 end.

(** Table [t] exists, has column [c], and [c] carries the comment [x]. *)
Definition commented (tables : gmap string table) (t c x : string) : Prop :=
  exists tb, tables !! t = Some tb /\ c ∈ tcols tb /\ tcomments tb !! c = Some x.

(** ** Concrete inputs *)

(** A reachable server that accepts every value. *)
Definition example_env : dbenv := mk_dbenv true (fun _ => true) (fun _ _ => true).

(** A database holding an empty [agoda_room] table of the pipeline's shape. *)
Definition example_world : world :=
  mk_world (<["agoda_room" := mk_table agoda_columns ∅ []]> ∅) [].

Definition example_rooms : list record :=
  [[("room_name", YStr "Deluxe"); ("price", YInt 100)];
   [("room_name", YStr "Twin"); ("price", YInt 80)];
   [("room_name", YStr "Suite"); ("price", YInt 200)]].

(** A server whose [price] column refuses the value 200. *)
Definition example_env_reject_200 : dbenv :=
  mk_dbenv true (fun _ => true)
    (fun c v => match v with YInt z => negb (String.eqb c "price" && (z =? 200)) | _ => true end).

(** A database with no table at all. *)
Definition empty_world : world := mk_world ∅ [].

(** A [database] section with a development environment. *)
Definition example_database : yaml :=
  YMap [("development", YMap [("host", YStr "localhost"); ("port", YInt 5432)])].

(** A configuration naming its environment. *)
Definition example_config : yaml :=
  YMap [("environment", YMap [("current", YStr "development")]); ("database", example_database)].

(** A configuration with no [environment] section. *)
Definition example_config_no_environment : yaml :=
  YMap [("database", example_database)].

(** A configuration whose [environment:] line was left empty. *)
Definition example_config_null_environment : yaml :=
  YMap [("environment", YNull); ("database", example_database)].

(** An [app.threading] section. *)
Definition example_threading (max_workers chunk_size : Z) : yaml :=
  YMap [("max_workers", YInt max_workers); ("chunk_size", YInt chunk_size);
        ("enable_threading", YBool true)].

(** ** [ConfigManager.load_config] and the remaining accessors *)

(** [config.yml] as [ConfigManager.load_config] finds it; [yaml.safe_load]
    of an empty file gives [None]. *)
Inductive cm_file : Type :=
| CMMissing                   (* [open] raises [FileNotFoundError] *)
| CMInvalid                   (* [yaml.safe_load] raises [YAMLError] *)
| CMYaml (v : yaml).

(** The two exceptions [load_config] logs and re-raises. *)
Inductive load_error : Type := FileNotFoundError | YAMLError.

(** A [ConfigManager]: [_config_cache] ([None] stands for Python's [None])
    and the number of times the file has been parsed. *)
Record config_manager := mk_cm { cm_cache : option yaml; cm_reads : nat }.

Definition cm_initial : config_manager := mk_cm None 0.

(** [ConfigManager.load_config]: the file is read while the cache is
    [None]; the parsed document, [None] included, is stored and returned. *)
Definition cm_load_config (file : cm_file) (cm : config_manager)
    : (load_error + yaml) * config_manager :=
  match cm_cache cm with
  | Some c => (inr c, cm)
  | None =>
    match file with
    | CMMissing => (inl FileNotFoundError, cm)
    | CMInvalid => (inl YAMLError, mk_cm None (S (cm_reads cm)))
    | CMYaml v =>
        (inr v, mk_cm (match v with YNull => None | _ => Some v end) (S (cm_reads cm)))
    end
  end.

(** An accessor [f] called on a [ConfigManager]: [config = self.load_config()]
    first, then [f config]. *)
Definition cm_call {A} (f : yaml -> py_result A) (file : cm_file) (cm : config_manager)
    : (load_error + py_result A) * config_manager :=
  let '(r, cm') := cm_load_config file cm in
  match r with
  | inl err => (inl err, cm')
  | inr config => (inr (f config), cm')
  end.

(** [get_table_name]: [config['database']['table_name']], no default. *)
Definition get_table_name (config : yaml) : py_result yaml :=
  let? db := py_getitem config "database" in py_getitem db "table_name".

(** [get_log_level]: [config.get('app', {}).get('log_level', 'INFO')] *)
Definition get_log_level (config : yaml) : py_result yaml :=
  let? app := py_get config "app" (YMap []) in py_get app "log_level" (YStr "INFO").

Definition default_pool_config : yaml :=
  YMap [("min_connections", YInt 2); ("max_connections", YInt 10);
        ("connection_timeout", YInt 30); ("idle_timeout", YInt 300)].

(** [get_connection_pool_config] *)
Definition get_connection_pool_config (config : yaml) : py_result yaml :=
  let? app := py_get config "app" (YMap []) in
  py_get app "connection_pool" default_pool_config.

(** ** The connection pool manager's configuration *)

(** [ConnectionPoolManager._get_db_config] (and the identical
    [DatabaseManager._get_db_config]): [loaded] is what [load_db_config()]
    gives.  Its value is stored in [self._db_config] before the log line
    reads [host] and [port]; a [None] stored there counts as nothing
    cached. *)
Definition _get_db_config (loaded : py_result yaml) (cache : option yaml)
    : py_result yaml * option yaml :=
  match cache with
  | Some c => (Ok c, cache)
  | None =>
    match loaded with
    | Raise ex => (Raise ex, None)
    | Ok c =>
        ((let? _ := py_getitem c "host" in let? _ := py_getitem c "port" in Ok c),
         match c with YNull => None | _ => Some c end)
    end
  end.

(** A [ConnectionPoolManager]: [_db_config] and [_connection_pool], the
    latter recorded by its [minconn] and [maxconn]. *)
Record pool_manager := mk_pm {
  pm_db_config : option yaml;
  pm_pool : option (yaml * yaml)
}.

(** [_initialize_pool]: [pool_config] is the result of
    [get_connection_pool_config()], [pool_ok] whether
    [ThreadedConnectionPool] manages to open its connections.  Keyword
    arguments [**db_config] need a mapping. *)
Definition _initialize_pool (loaded : py_result yaml) (pool_config : py_result yaml)
    (pool_ok : bool) (pm : pool_manager) : py_result unit * pool_manager :=
  match pm_pool pm with
  | Some _ => (Ok tt, pm)
  | None =>
    let '(dbc, cache) := _get_db_config loaded (pm_db_config pm) in
    let pm1 := mk_pm cache None in
    match (let? db_config := dbc in
           let? pc := pool_config in
           let? minconn := py_getitem pc "min_connections" in
           let? maxconn := py_getitem pc "max_connections" in
           Ok (minconn, maxconn, db_config)) with
    | Raise ex => (Raise ex, pm1)
    | Ok (minconn, maxconn, db_config) =>
        match db_config with
        | YMap _ =>
            if pool_ok then (Ok tt, mk_pm cache (Some (minconn, maxconn)))
            else (Raise DatabaseError, pm1)
        | _ => (Raise TypeError, pm1)
        end
    end
  end.

(** ** [AgodaDataPipeline] *)

(** The [if self.config_manager.is_threading_enabled():] test: the
    truthiness of the configured value. *)
Definition threading_mode (config : yaml) : py_result bool :=
  let? v := is_threading_enabled config in Ok (py_truthy v).

Section Pipeline.

(** [str(v)]: how a table name that is not a string is written into the
    SQL text. *)
Variable py_str : yaml -> string.

Definition table_text (v : yaml) : string :=
  match v with YStr s => s | _ => py_str v end.

(** [if target_table is None: target_table = self.config_manager.get_table_name()] *)
Definition resolve_table (config : yaml) (target_table : option string) : py_result string :=
  match target_table with
  | Some t => Ok t
  | None => let? v := get_table_name config in Ok (table_text v)
  end.

(** [AgodaDataPipeline.create_table]: delegates to [TableManager.create_table]. *)
Definition pipeline_create_table (e : dbenv) (config : yaml) (table_name : option string)
    (w : world) : py_result bool * world :=
  create_table e (let? v := get_table_name config in Ok (table_text v)) table_name w.

(** The threaded insert as the pipeline calls it, with the pipeline's
    configuration. *)
Definition threaded_with (e : dbenv) (config : yaml) (order : list nat)
    (room_list : list record) (t : string) (w : world) : threaded_run :=
  insert_raw_data_threaded_run e (get_threading_config config) (get_batch_size config)
    order room_list t w.

(** [AgodaDataPipeline.insert_data] *)
Definition pipeline_insert_data (e : dbenv) (config : yaml) (order : list nat)
    (room_list : list record) (target_table : option string) (w : world)
    : py_result bool * world :=
  match resolve_table config target_table with
  | Raise ex => (Raise ex, w)
  | Ok t =>
    match threading_mode config with
    | Raise ex => (Raise ex, w)
    | Ok true =>
        let r := threaded_with e config order room_list t w in (tr_result r, tr_world r)
    | Ok false => insert_raw_data e (get_batch_size config) room_list t w
    end
  end.

(** [AgodaDataPipeline.insert_data_single_thread]: in threading mode a
    temporary [DataManager] over a fresh [DatabaseManager] does the insert. *)
Definition pipeline_insert_single (e : dbenv) (config : yaml)
    (room_list : list record) (target_table : option string) (w : world)
    : py_result bool * world :=
  match resolve_table config target_table with
  | Raise ex => (Raise ex, w)
  | Ok t =>
    match threading_mode config with
    | Raise ex => (Raise ex, w)
    | Ok true => insert_raw_data e (get_batch_size config) room_list t w
    | Ok false => insert_raw_data e (get_batch_size config) room_list t w
    end
  end.

(** [AgodaDataPipeline.insert_data_multi_thread]: the third component tells
    whether a temporary pool was closed ([close_pool()]). *)
Definition pipeline_insert_multi (e : dbenv) (config : yaml) (order : list nat)
    (room_list : list record) (target_table : option string) (w : world)
    : py_result bool * world * bool :=
  match resolve_table config target_table with
  | Raise ex => (Raise ex, w, false)
  | Ok t =>
    match threading_mode config with
    | Raise ex => (Raise ex, w, false)
    | Ok false =>
        let r := threaded_with e config order room_list t w in
        match tr_result r with
        | Ok b => (Ok b, tr_world r, true)
        | Raise _ => (Ok false, tr_world r, true)
        end
    | Ok true =>
        let r := threaded_with e config order room_list t w in (tr_result r, tr_world r, false)
    end
  end.

End Pipeline.

(** ** More concrete inputs *)

(** One record. *)
Definition example_room : record := [("room_name", YStr "Deluxe"); ("price", YInt 100)].

(** A configuration naming table [agoda_room], with batch size 100, four
    workers, chunks of [chunk_size] and [enable_threading] set to [flag]. *)
Definition example_app_config (flag : yaml) (chunk_size : Z) : yaml :=
  YMap [("database", YMap [("table_name", YStr "agoda_room")]);
        ("app", YMap [("batch_size", YInt 100);
                      ("threading", YMap [("max_workers", YInt 4);
                                          ("chunk_size", YInt chunk_size);
                                          ("enable_threading", flag)])])].


(** ** Chunking *)

Section Chunking.

Context {A : Type}.

Lemma py_slice_nat (l : list A) (i j : nat) :
  py_slice l (Z.of_nat i) (Z.of_nat j) =
  firstn (Nat.min j (length l) - Nat.min i (length l)) (skipn (Nat.min i (length l)) l).
Proof.
  unfold py_slice, slice_index.
  rewrite !(proj2 (Z.ltb_ge _ _)) by lia. rewrite !Nat2Z.id. reflexivity.
Qed.

Lemma range_up_step fuel (i n m : nat) :
  (i < n)%nat ->
  range_up (S fuel) (Z.of_nat i) (Z.of_nat n) (Z.of_nat m) =
  Z.of_nat i :: range_up fuel (Z.of_nat (i + m)) (Z.of_nat n) (Z.of_nat m).
Proof.
  intros Hi. simpl. rewrite (proj2 (Z.ltb_lt _ _)) by lia.
  rewrite Nat2Z.inj_add. reflexivity.
Qed.

Lemma range_up_stop fuel (i n m : nat) :
  (n <= i)%nat -> range_up fuel (Z.of_nat i) (Z.of_nat n) (Z.of_nat m) = [].
Proof.
  intros Hi. destruct fuel; simpl; [reflexivity|].
  rewrite (proj2 (Z.ltb_ge _ _)) by lia. reflexivity.
Qed.

(** The chunks produced from offset [i] onwards, with enough fuel, glue back
    to the suffix of the data starting at [i]. *)
Lemma chunks_from_concat (data : list A) (m : nat) fuel (i : nat) :
  (0 < m)%nat -> (length data - i <= fuel)%nat ->
  concat (map (fun k => py_slice data k (k + Z.of_nat m))
              (range_up fuel (Z.of_nat i) (Z.of_nat (length data)) (Z.of_nat m)))
  = skipn i data.
Proof.
  intros Hm. revert i. induction fuel as [|fuel IH]; intros i Hf.
  - rewrite range_up_stop by lia. simpl. rewrite skipn_all2 by lia. reflexivity.
  - destruct (Nat.lt_ge_cases i (length data)) as [Hi|Hi].
    + rewrite range_up_step by exact Hi. simpl.
      rewrite <- Nat2Z.inj_add, py_slice_nat, IH by lia.
      rewrite (Nat.min_l i) by lia.
      destruct (Nat.le_gt_cases (i + m) (length data)) as [Hc|Hc].
      * rewrite Nat.min_l by lia.
        replace (i + m - i)%nat with m by lia.
        transitivity (firstn m (skipn i data) ++ skipn m (skipn i data));
          [rewrite skipn_skipn; do 2 f_equal; lia | apply firstn_skipn].
      * rewrite Nat.min_r by lia.
        rewrite (skipn_all2 (n:=(i + m)%nat) data) by lia. rewrite app_nil_r.
        rewrite firstn_all2; [reflexivity|]. rewrite length_skipn. lia.
    + rewrite range_up_stop by exact Hi. simpl. rewrite skipn_all2 by lia. reflexivity.
Qed.

(** Every chunk from offset [i] is non-empty and at most [m] long, and every
    chunk but the last is exactly [m] long. *)
Lemma chunks_from_sizes (data : list A) (m : nat) fuel (i : nat) :
  (0 < m)%nat ->
  let chunks := map (fun k => py_slice data k (k + Z.of_nat m))
                    (range_up fuel (Z.of_nat i) (Z.of_nat (length data)) (Z.of_nat m)) in
  forall j ch, chunks !! j = Some ch ->
    (0 < length ch <= m)%nat /\ (S j < length chunks -> length ch = m)%nat.
Proof.
  intros Hm. revert i. induction fuel as [|fuel IH]; intros i chunks j ch Hj.
  - discriminate.
  - subst chunks. destruct (Nat.lt_ge_cases i (length data)) as [Hi|Hi].
    + rewrite range_up_step in Hj |- * by exact Hi. simpl in Hj |- *.
      destruct j as [|j].
      * injection Hj as <-.
        rewrite <- Nat2Z.inj_add, py_slice_nat, (Nat.min_l i) by lia.
        rewrite length_firstn, length_skipn.
        split; [lia|]. intros Hlen.
        destruct (Nat.le_gt_cases (i + m) (length data)) as [Hc|Hc]; [lia|].
        rewrite length_map, range_up_stop in Hlen by lia. simpl in Hlen. lia.
      * specialize (IH (i + m)%nat j ch). cbv zeta in IH.
        specialize (IH Hj). rewrite length_map. rewrite length_map in IH. lia.
    + rewrite range_up_stop in Hj by exact Hi. discriminate.
Qed.

End Chunking.

(** [_chunk_data] with a positive chunk size: the chunks concatenate to the
    input, and all but the last hold exactly [chunk_size] records. *)
Lemma chunk_data_spec (data : list record) (chunk_size : Z) :
  0 < chunk_size ->
  exists chunks, _chunk_data data chunk_size = Ok chunks /\
    concat chunks = data /\
    (forall j ch, chunks !! j = Some ch ->
       (0 < length ch <= Z.to_nat chunk_size)%nat /\
       (S j < length chunks -> length ch = Z.to_nat chunk_size)%nat).
Proof.
  intros Hc. destruct (Z_of_nat_complete chunk_size) as [m ->]; [lia|].
  rewrite Nat2Z.id. unfold _chunk_data, py_range.
  rewrite (proj2 (Z.eqb_neq _ _)) by lia. rewrite (proj2 (Z.ltb_lt _ _)) by lia.
  simpl. eexists; split; [reflexivity|].
  change 0 with (Z.of_nat 0).
  split.
  - rewrite chunks_from_concat; [reflexivity|lia|lia].
  - apply chunks_from_sizes. lia.
Qed.

(** ** The threaded run *)

Section ThreadedRun.

Local Open Scope nat_scope.

Lemma run_chunks_indices e bs chunks t order w :
  map fst (run_chunks e bs chunks t order w).1 = order.
Proof.
  revert w. induction order as [|i rest IH]; intros w; simpl; [reflexivity|].
  destruct (_insert_chunk e bs (nth i chunks []) t i w) as [o w1].
  specialize (IH w1). destruct (run_chunks e bs chunks t rest w1) as [evs w2].
  simpl in *. f_equal. exact IH.
Qed.

Lemma insert_chunk_count e bs chunk t i w n w' :
  _insert_chunk e bs chunk t i w = (Inserted n, w') -> n = length chunk.
Proof.
  unfold _insert_chunk. destruct chunk as [|r0 rs]; intros H.
  - injection H as <- _. reflexivity.
  - destruct bs as [bs|ex]; [|discriminate].
    destruct (execute_batch e (w_tables w) t (keys r0) (r0 :: rs) bs);
      destruct (getconn_ok e i); simpl in H; try discriminate.
    injection H as <- _. reflexivity.
Qed.

(** A successful future holds the size of its chunk. *)
Lemma run_chunks_counts e bs chunks t order w :
  Forall (fun ev => match ev.2 with
                    | Inserted n => n = length (nth ev.1 chunks [])
                    | Failed _ => True end)
         (run_chunks e bs chunks t order w).1.
Proof.
  revert w. induction order as [|i rest IH]; intros w; simpl; [constructor|].
  destruct (_insert_chunk e bs (nth i chunks []) t i w) as [o w1] eqn:Hc.
  specialize (IH w1). destruct (run_chunks e bs chunks t rest w1) as [evs w2].
  simpl in *. constructor; [|exact IH]. simpl.
  destruct o; [eapply insert_chunk_count; exact Hc | exact I].
Qed.

Lemma as_completed_loop_all_ok evs total :
  Forall (fun ev => is_inserted ev.2 = true) evs ->
  as_completed_loop evs total = (true, total + list_sum (map (fun ev => count_of ev.2) evs)).
Proof.
  revert total. induction evs as [|[i o] rest IH]; intros total Hall; simpl.
  - f_equal. lia.
  - inversion Hall as [|? ? Ho Hrest]; subst. simpl in Ho.
    destruct o as [n|ex]; [|discriminate].
    rewrite IH by exact Hrest. f_equal. simpl. lia.
Qed.

Lemma as_completed_loop_failed evs total i ex :
  In (i, Failed ex) evs -> (as_completed_loop evs total).1 = false.
Proof.
  revert total. induction evs as [|[j o] rest IH]; intros total Hin; simpl.
  - destruct Hin.
  - destruct o as [n|ex']; [|reflexivity].
    destruct Hin as [Heq|Hin]; [discriminate|]. apply IH. exact Hin.
Qed.

Lemma as_completed_loop_true evs total b n :
  as_completed_loop evs total = (b, n) -> b = true ->
  Forall (fun ev => is_inserted ev.2 = true) evs.
Proof.
  revert total. induction evs as [|[j o] rest IH]; intros total H Hb; simpl in *.
  - constructor.
  - destruct o as [m|ex].
    + constructor; [reflexivity|]. eapply IH; eassumption.
    + congruence.
Qed.

Lemma list_sum_perm (l1 l2 : list nat) : l1 ≡ₚ l2 -> list_sum l1 = list_sum l2.
Proof.
  induction 1; simpl; lia.
Qed.

Lemma list_sum_counts_ok (chunks : list (list record)) evs :
  Forall (fun ev => match ev.2 with
                    | Inserted n => n = length (nth ev.1 chunks [])
                    | Failed _ => True end) evs ->
  Forall (fun ev => is_inserted ev.2 = true) evs ->
  list_sum (map (fun ev => count_of ev.2) evs)
  = list_sum (map (fun i => length (nth i chunks [])) (map fst evs)).
Proof.
  induction evs as [|[i o] rest IH]; intros Hc Hok; simpl; [reflexivity|].
  inversion Hc as [|? ? Hc1 Hcr]; inversion Hok as [|? ? Ho1 Hor]; subst.
  simpl in *. destruct o as [n|ex]; [|discriminate]. simpl. rewrite Hc1, IH; auto.
Qed.

Lemma list_sum_chunk_lengths (chunks : list (list record)) :
  list_sum (map (fun i => length (nth i chunks [])) (seq 0 (length chunks)))
  = length (concat chunks).
Proof.
  induction chunks as [|c cs IH]; simpl; [reflexivity|].
  rewrite <- seq_shift, map_map. simpl. rewrite length_app, IH. reflexivity.
Qed.

End ThreadedRun.

Lemma threaded_run_unfold e tc bs order r0 rs t w mw cs C chunks :
  py_getitem tc "max_workers" = Ok mw ->
  py_getitem tc "chunk_size" = Ok cs ->
  py_int cs = Some C ->
  _chunk_data (r0 :: rs) C = Ok chunks ->
  insert_raw_data_threaded_run e (Ok tc) bs order (r0 :: rs) t w =
  if executor_accepts mw then
    let '(evs, w') := run_chunks e bs chunks t order w in
    let '(b, total) := as_completed_loop evs 0 in
    mk_run (Ok b) total evs w'
  else mk_run (Ok false) 0 [] w.
Proof.
  intros Hmw Hcs Hint Hcd.
  cbn [insert_raw_data_threaded_run py_bind]. rewrite Hmw. cbn [py_bind].
  rewrite Hcs. cbn [py_bind]. rewrite Hint. rewrite Hcd. cbn [py_bind].
  destruct (executor_accepts mw); reflexivity.
Qed.

(** ** Claims about the insert paths *)

(** C1: with a positive chunk size C, [_chunk_data] cuts the records into
    contiguous chunks that concatenate back to the input, every chunk but the
    last holding exactly C records (the last between 1 and C); and whatever
    the worker setting, when every chunk's insert ran and succeeded,
    [insert_raw_data_threaded] returns [True] with [total_inserted] equal to
    the number of records. *)
Theorem threaded_insert_total (e : dbenv) (tc : yaml) (bs : py_result yaml)
    (order : list nat) (room_list : list record) (target : string) (w : world)
    (max_workers : yaml) (C : Z) :
  py_getitem tc "max_workers" = Ok max_workers ->
  py_getitem tc "chunk_size" = Ok (YInt C) ->
  0 < C ->
  exists chunks,
    _chunk_data room_list C = Ok chunks /\
    concat chunks = room_list /\
    (forall j ch, chunks !! j = Some ch ->
       (0 < length ch <= Z.to_nat C)%nat /\
       (S j < length chunks -> length ch = Z.to_nat C)%nat) /\
    (let r := insert_raw_data_threaded_run e (Ok tc) bs order room_list target w in
     map fst (tr_events r) ≡ₚ seq 0 (length chunks) ->
     Forall (fun ev => is_inserted ev.2 = true) (tr_events r) ->
     tr_result r = Ok true /\ tr_total r = length room_list).
Proof.
  intros Hmw Hcs HC.
  destruct (chunk_data_spec room_list C HC) as [chunks [Hcd [Hcat Hsz]]].
  exists chunks. split; [exact Hcd|]. split; [exact Hcat|]. split; [exact Hsz|].
  cbv zeta. intros Hperm Hok.
  destruct room_list as [|r0 rs]; [split; reflexivity|].
  rewrite (threaded_run_unfold e tc bs order r0 rs target w max_workers (YInt C) C chunks
             Hmw Hcs eq_refl Hcd)
    in Hperm, Hok |- *.
  destruct (executor_accepts max_workers).
  - pose proof (run_chunks_indices e bs chunks target order w) as Hidx.
    pose proof (run_chunks_counts e bs chunks target order w) as Hcnt.
    destruct (run_chunks e bs chunks target order w) as [evs w'] eqn:Hrun.
    simpl in Hidx, Hcnt.
    destruct (as_completed_loop evs 0) as [b total] eqn:Hloop.
    simpl in Hperm, Hok |- *.
    rewrite (as_completed_loop_all_ok evs 0 Hok) in Hloop.
    injection Hloop as <- <-. split; [reflexivity|]. simpl.
    rewrite (list_sum_counts_ok chunks evs Hcnt Hok).
    rewrite (list_sum_perm _ _ (Permutation_map _ Hperm)).
    rewrite list_sum_chunk_lengths, Hcat. reflexivity.
  - simpl in Hperm. apply Permutation_length in Hperm.
    rewrite length_seq in Hperm. destruct chunks; [|discriminate].
    simpl in Hcat. discriminate.
Qed.

(** ** Row counts *)

Section RowCounts.

Local Open Scope nat_scope.

Lemma py_mapM_length {A B} (f : A -> py_result B) (l : list A) (l' : list B) :
  py_mapM f l = Ok l' -> length l' = length l.
Proof.
  revert l'. induction l as [|x r IH]; intros l' H; simpl in H.
  - injection H as <-. reflexivity.
  - destruct (f x) as [y|ex]; [|discriminate]. simpl in H.
    destruct (py_mapM f r) as [ys|ex]; [|discriminate]. simpl in H.
    injection H as <-. simpl. f_equal. apply IH. reflexivity.
Qed.

(** A successful [execute_batch] adds one row per record to the target. *)
Lemma execute_batch_rows e tables t columns rows ps tables' :
  execute_batch e tables t columns rows ps = Ok tables' ->
  rows_in tables' t = rows_in tables t + length rows.
Proof.
  unfold execute_batch. destruct rows as [|r0 rs].
  - intros H. injection H as <-. simpl. lia.
  - destruct (py_int ps) as [z|]; [|discriminate].
    destruct (z <=? 0)%Z; [discriminate|].
    destruct (py_mapM (bind_row columns) (r0 :: rs)) as [vals|ex] eqn:Hv; [|discriminate].
    simpl. unfold rows_in. destruct (tables !! t) as [tb|] eqn:Ht; [|discriminate].
    destruct (bool_decide (columns = [])); [discriminate|].
    destruct (negb _); [discriminate|]. destruct (negb _); [discriminate|].
    intros H. injection H as <-. rewrite lookup_insert_eq. simpl.
    rewrite length_app, (py_mapM_length _ _ _ Hv). simpl. lia.
Qed.

Lemma insert_raw_data_rows e bs room_list t w w1 :
  insert_raw_data e bs room_list t w = (Ok true, w1) ->
  row_count w1 t = row_count w t + length room_list.
Proof.
  unfold insert_raw_data. destruct room_list as [|r0 rs].
  - intros H. injection H as <-. simpl. lia.
  - destruct (connect_ok e); cbn [negb]; [|discriminate].
    destruct bs as [b|ex]; cbn [py_bind]; [|discriminate].
    destruct (execute_batch e (w_tables w) t (keys r0) (r0 :: rs) b) as [tables'|ex] eqn:He;
      [|discriminate].
    intros H. injection H as <-. apply execute_batch_rows in He.
    unfold row_count. simpl. exact He.
Qed.

Lemma insert_chunk_rows e bs chunk t i w o w' :
  _insert_chunk e bs chunk t i w = (o, w') ->
  row_count w' t = row_count w t + count_of o.
Proof.
  unfold _insert_chunk. destruct chunk as [|r0 rs]; intros H.
  - injection H as <- <-. simpl. lia.
  - destruct bs as [bs|ex]; [|injection H as <- <-; simpl; lia].
    destruct (execute_batch e (w_tables w) t (keys r0) (r0 :: rs) bs) as [tables'|ex] eqn:He;
      destruct (getconn_ok e i); cbn [negb] in H; injection H as <- <-;
      unfold row_count; simpl; try lia.
    apply execute_batch_rows in He. exact He.
Qed.

Lemma run_chunks_rows e bs chunks t order w evs w' :
  run_chunks e bs chunks t order w = (evs, w') ->
  row_count w' t = row_count w t + list_sum (map (fun ev => count_of ev.2) evs).
Proof.
  revert w evs. induction order as [|i rest IH]; intros w evs H; simpl in H.
  - injection H as <- <-. simpl. lia.
  - destruct (_insert_chunk e bs (nth i chunks []) t i w) as [o w1] eqn:Hc.
    destruct (run_chunks e bs chunks t rest w1) as [evs1 w2] eqn:Hr.
    injection H as <- <-. simpl.
    rewrite (IH w1 evs1 Hr), (insert_chunk_rows _ _ _ _ _ _ _ _ Hc). lia.
Qed.

End RowCounts.

Lemma chunk_data_ok (data : list record) (C : Z) :
  C <> 0 -> exists chunks, _chunk_data data C = Ok chunks.
Proof.
  intros HC. unfold _chunk_data, py_range.
  rewrite (proj2 (Z.eqb_neq _ _)) by exact HC.
  destruct (0 <? C); eexists; reflexivity.
Qed.

(** C2: a chunk whose insert raised makes [insert_raw_data_threaded] return
    [False], whatever the other chunks did; [DataManager.insert_raw_data]
    and [create_table] with a table name turn every failure into a boolean,
    and so does [insert_raw_data_threaded] once its configuration gives a
    nonzero integer chunk size (configuration errors raised before its [try]
    propagate). *)
Theorem chunk_failure_reported_false :
  (forall e tcfg bs order room_list t w i ex,
     In (i, Failed ex)
        (tr_events (insert_raw_data_threaded_run e tcfg bs order room_list t w)) ->
     insert_raw_data_threaded e tcfg bs order room_list t w = Ok false) /\
  (forall e bs room_list t w, exists b, (insert_raw_data e bs room_list t w).1 = Ok b) /\
  (forall e cfg t w, exists b, (create_table e cfg (Some t) w).1 = Ok b) /\
  (forall e tc bs order room_list t w mw cs C,
     py_getitem tc "max_workers" = Ok mw ->
     py_getitem tc "chunk_size" = Ok cs ->
     py_int cs = Some C -> C <> 0 ->
     exists b, insert_raw_data_threaded e (Ok tc) bs order room_list t w = Ok b).
Proof.
  split; [|split; [|split]].
  - intros e tcfg bs order room_list t w i ex Hin.
    unfold insert_raw_data_threaded. unfold insert_raw_data_threaded_run in *.
    destruct room_list as [|r0 rs]; [destruct Hin|].
    destruct (py_bind tcfg _) as [[mw chunks]|ex']; [|destruct Hin].
    destruct (executor_accepts mw); [|destruct Hin].
    destruct (run_chunks e bs chunks t order w) as [evs w'].
    destruct (as_completed_loop evs 0) as [b total] eqn:Hloop. simpl in *.
    pose proof (as_completed_loop_failed evs 0 i ex Hin) as Hf.
    rewrite Hloop in Hf. simpl in Hf. subst b. reflexivity.
  - intros e bs room_list t w. unfold insert_raw_data.
    destruct room_list as [|r0 rs]; [eexists; reflexivity|].
    destruct (connect_ok e); cbn [negb]; [|eexists; reflexivity].
    destruct (py_bind bs _); eexists; reflexivity.
  - intros e cfg t w. unfold create_table.
    destruct (connect_ok e); cbn [negb]; [|eexists; reflexivity].
    destruct (run_comments _ _ _); eexists; reflexivity.
  - intros e tc bs order room_list t w mw cs C Hmw Hcs Hint HC.
    destruct (chunk_data_ok room_list C HC) as [chunks Hcd].
    unfold insert_raw_data_threaded.
    destruct room_list as [|r0 rs]; [eexists; reflexivity|].
    rewrite (threaded_run_unfold e tc bs order r0 rs t w mw cs C chunks Hmw Hcs Hint Hcd).
    destruct (executor_accepts mw); [|eexists; reflexivity].
    destruct (run_chunks e bs chunks t order w) as [evs w'].
    destruct (as_completed_loop evs 0) as [b total]. eexists; reflexivity.
Qed.

(** C3 (as amended): with a positive integer chunk size, when every
    submitted chunk completes, the sequential path and the threaded path,
    started from the same database, end with the same number of rows in the
    target table whenever both return [True]. *)
Theorem sequential_threaded_same_rows (e : dbenv) (tc : yaml) (bs : py_result yaml)
    (order : list nat) (room_list : list record) (t : string) (w w1 : world)
    (max_workers : yaml) (C : Z) (chunks : list (list record)) :
  py_getitem tc "max_workers" = Ok max_workers ->
  py_getitem tc "chunk_size" = Ok (YInt C) ->
  0 < C ->
  _chunk_data room_list C = Ok chunks ->
  order ≡ₚ seq 0 (length chunks) ->
  insert_raw_data e bs room_list t w = (Ok true, w1) ->
  insert_raw_data_threaded e (Ok tc) bs order room_list t w = Ok true ->
  row_count w1 t
  = row_count (tr_world (insert_raw_data_threaded_run e (Ok tc) bs order room_list t w)) t.
Proof.
  intros Hmw Hcs HC Hcd Hord Hseq Hthr.
  rewrite (insert_raw_data_rows _ _ _ _ _ _ Hseq).
  destruct (chunk_data_spec room_list C HC) as [chunks' [Hcd' [Hcat _]]].
  rewrite Hcd in Hcd'. injection Hcd' as <-.
  unfold insert_raw_data_threaded in Hthr.
  destruct room_list as [|r0 rs]; [simpl; lia|].
  rewrite (threaded_run_unfold e tc bs order r0 rs t w max_workers (YInt C) C chunks
             Hmw Hcs eq_refl Hcd) in Hthr |- *.
  destruct (executor_accepts max_workers); [|discriminate].
  pose proof (run_chunks_indices e bs chunks t order w) as Hidx.
  pose proof (run_chunks_counts e bs chunks t order w) as Hcnt.
  destruct (run_chunks e bs chunks t order w) as [evs w'] eqn:Hrun.
  simpl in Hidx, Hcnt.
  destruct (as_completed_loop evs 0) as [b total] eqn:Hloop.
  simpl in Hthr |- *. injection Hthr as ->.
  pose proof (as_completed_loop_true _ _ _ _ Hloop eq_refl) as Hok.
  rewrite (run_chunks_rows _ _ _ _ _ _ _ _ Hrun).
  rewrite (list_sum_counts_ok chunks evs Hcnt Hok), Hidx.
  rewrite (list_sum_perm _ _ (Permutation_map _ Hord)).
  rewrite list_sum_chunk_lengths, Hcat. reflexivity.
Qed.

(** C3, refuted: with [chunk_size: -1] in the threading configuration,
    [range(0, 3, -1)] is empty, so the threaded path submits no chunk and
    returns [True] with no row inserted, while the sequential path inserts
    the three records and also returns [True]. *)
Lemma sequential_threaded_rows_differ :
  (insert_raw_data example_env (Ok (YInt 100)) example_rooms "agoda_room" example_world).1
    = Ok true /\
  insert_raw_data_threaded example_env (Ok (example_threading 4 (-1))) (Ok (YInt 100)) []
    example_rooms "agoda_room" example_world = Ok true /\
  row_count (insert_raw_data example_env (Ok (YInt 100)) example_rooms "agoda_room"
               example_world).2 "agoda_room" = 3%nat /\
  row_count (tr_world (insert_raw_data_threaded_run example_env
               (Ok (example_threading 4 (-1))) (Ok (YInt 100)) []
               example_rooms "agoda_room" example_world)) "agoda_room" = 0%nat.
Proof.
  vm_compute. repeat split.
Qed.

(** C8: an empty record list makes both insert paths return [True] at once:
    no connection, no statement, the database and the log unchanged. *)
Theorem empty_insert_untouched (e : dbenv) (tcfg bs : py_result yaml) (order : list nat)
    (t : string) (w : world) :
  insert_raw_data e bs [] t w = (Ok true, w) /\
  insert_raw_data_threaded_run e tcfg bs order [] t w = mk_run (Ok true) 0 [] w.
Proof.
  split; reflexivity.
Qed.

(** ** Table creation *)

Section Comments.

Lemma comment_columns_nodup : NoDup (map fst comment_sqls).
Proof. apply (bool_decide_unpack _). vm_compute. exact I. Qed.

Lemma comment_on_column_id t c x tables :
  commented tables t c x -> comment_on_column t c x tables = Ok tables.
Proof.
  intros (tb & Ht & Hc & Hx). unfold comment_on_column. rewrite Ht.
  rewrite bool_decide_eq_true_2 by exact Hc. f_equal.
  rewrite (insert_id (tcomments tb) c x Hx).
  destruct tb as [cols cms rows]. simpl. apply insert_id. exact Ht.
Qed.

Lemma comment_on_column_sets t c x tables tables' :
  comment_on_column t c x tables = Ok tables' -> commented tables' t c x.
Proof.
  unfold comment_on_column. destruct (tables !! t) as [tb|] eqn:Ht; [|discriminate].
  case_bool_decide as Hc; [|discriminate]. intros H. injection H as <-.
  eexists. rewrite lookup_insert_eq. split; [reflexivity|]. simpl.
  split; [exact Hc|]. apply lookup_insert_eq.
Qed.

Lemma comment_on_column_keeps t c x tables tables' c' x' :
  comment_on_column t c x tables = Ok tables' -> c' <> c ->
  commented tables t c' x' -> commented tables' t c' x'.
Proof.
  unfold comment_on_column. intros H Hne (tb & Ht & Hc & Hx).
  rewrite Ht in H. case_bool_decide; [|discriminate]. injection H as <-.
  eexists. rewrite lookup_insert_eq. split; [reflexivity|]. simpl.
  split; [exact Hc|]. rewrite lookup_insert_ne by congruence. exact Hx.
Qed.

Lemma run_comments_id t cs tables :
  Forall (fun cx => commented tables t cx.1 cx.2) cs -> run_comments t cs tables = Ok tables.
Proof.
  induction cs as [|[c x] rest IH]; intros Hall; simpl; [reflexivity|].
  inversion Hall as [|? ? H1 Hr]; subst. simpl in H1.
  rewrite (comment_on_column_id _ _ _ _ H1). simpl. apply IH. exact Hr.
Qed.

Lemma run_comments_keeps t cs tables tables' c x :
  run_comments t cs tables = Ok tables' -> c ∉ map fst cs ->
  commented tables t c x -> commented tables' t c x.
Proof.
  revert tables. induction cs as [|[c0 x0] rest IH]; intros tables H Hn Hcm; simpl in H.
  - injection H as <-. exact Hcm.
  - destruct (comment_on_column t c0 x0 tables) as [tables1|ex] eqn:H1; [|discriminate].
    simpl in H, Hn. apply not_elem_of_cons in Hn as [Hne Hn].
    apply (IH tables1 H Hn). eapply comment_on_column_keeps; eassumption.
Qed.

Lemma run_comments_sets t cs tables tables' :
  run_comments t cs tables = Ok tables' -> NoDup (map fst cs) ->
  Forall (fun cx => commented tables' t cx.1 cx.2) cs.
Proof.
  revert tables. induction cs as [|[c0 x0] rest IH]; intros tables H Hnd; simpl in H.
  - constructor.
  - destruct (comment_on_column t c0 x0 tables) as [tables1|ex] eqn:H1; [|discriminate].
    simpl in H, Hnd. apply NoDup_cons in Hnd as [Hn Hnd].
    constructor.
    + simpl. eapply run_comments_keeps; [exact H|exact Hn|].
      eapply comment_on_column_sets. exact H1.
    + eapply IH; eassumption.
Qed.

End Comments.

(** C6: once [create_table] has succeeded, calling it again with the same
    arguments issues the same "create if not exists" DDL and comments,
    succeeds, and leaves the tables exactly as they were, the table present
    once under its name. *)
Theorem create_table_idempotent (e : dbenv) (cfg : py_result string)
    (table_name : option string) (w w1 : world) :
  create_table e cfg table_name w = (Ok true, w1) ->
  exists t tb w2,
    (match table_name with Some n => Ok n | None => cfg end) = Ok t /\
    w_tables w1 !! t = Some tb /\
    create_table e cfg table_name w1 = (Ok true, w2) /\
    w_tables w2 = w_tables w1.
Proof.
  unfold create_table. intros H.
  destruct (match table_name with Some n => Ok n | None => cfg end) as [t|ex] eqn:Hn;
    [|discriminate].
  destruct (connect_ok e); cbn [negb] in H |- *; [|discriminate].
  destruct (run_comments t comment_sqls (create_table_if_not_exists t (w_tables w)))
    as [tables'|ex] eqn:Hr; [|discriminate].
  injection H as <-. cbn [w_tables].
  pose proof (run_comments_sets _ _ _ _ Hr comment_columns_nodup) as Hall.
  assert (Hid : commented tables' t "id" "主键ID").
  { rewrite Forall_forall in Hall. apply (Hall ("id", "主键ID")). left. }
  destruct Hid as (tb & Ht & _).
  exists t, tb. eexists. split; [reflexivity|]. split; [exact Ht|].
  unfold create_table_if_not_exists. rewrite Ht.
  rewrite (run_comments_id _ _ _ Hall). split; reflexivity.
Qed.

(** ** The configuration loader *)

Section Loader.

Lemma get_config_sets_cache file st o st1 :
  get_config false file st = (Ok o, st1) -> _config_cache st1 = Some o.
Proof.
  unfold get_config. destruct (_config_cache st) as [o0|] eqn:Hc.
  - intros H. injection H as <- <-. exact Hc.
  - destruct (_load_yaml_config file st) as [[o'|ex] st']; intros H;
      [injection H as <- <-; reflexivity | discriminate].
Qed.

Lemma get_config_cached file st o :
  _config_cache st = Some o -> get_config false file st = (Ok o, st).
Proof. intros Hc. unfold get_config. rewrite Hc. reflexivity. Qed.

Lemma get_config_fresh_id file st o st1 :
  loader_ok st -> get_config false file st = (Ok o, st1) -> (obj_id o < reads st1)%nat.
Proof.
  unfold loader_ok, get_config. intros Hok.
  destruct (_config_cache st) as [o0|] eqn:Hc.
  - intros H. injection H as <- <-. apply Hok. reflexivity.
  - unfold _load_yaml_config. destruct file as [| |v]; try discriminate.
    destruct (py_truthy v); [|discriminate].
    intros H. injection H as <- <-. simpl. lia.
Qed.

(** With a cached object, [get_database_config] reads nothing: its result
    and the loader afterwards do not depend on the file. *)
Lemma get_database_config_cached file file' st o env :
  _config_cache st = Some o ->
  get_database_config file st env = get_database_config file' st env /\
  (get_database_config file st env).2 = st.
Proof.
  intros Hc. unfold get_database_config, get_current_environment.
  rewrite !(get_config_cached _ _ _ Hc).
  destruct env as [env|].
  - destruct (let? db := py_getitem (obj_val o) "database" in py_getitem_v db env)
      as [c|[]]; split; reflexivity.
  - destruct (let? env := py_getitem (obj_val o) "environment" in py_getitem env "current")
      as [v|[]]; try (split; reflexivity);
    destruct (let? db := py_getitem (obj_val o) "database" in py_getitem_v db _)
      as [c|[]]; split; reflexivity.
Qed.

End Loader.

(** C4: after a [get_config()] that returned object [o], a second
    [get_config()] returns that same object (same identity) and reads
    nothing, whatever the file now holds, and so does [load_config]; a
    forced reload reads the file again and caches a new object built from
    its current content. *)
Theorem get_config_cached_identity (file : config_file) (st st1 : loader) (o : config_obj) :
  loader_ok st ->
  get_config false file st = (Ok o, st1) ->
  (forall file', get_config false file' st1 = (Ok o, st1)) /\
  (forall env file' file'', load_config file' st1 env = load_config file'' st1 env /\
                            (load_config file' st1 env).2 = st1) /\
  (forall v, py_truthy v = true ->
     get_config true (FileYaml v) st1
       = (Ok (mk_obj (reads st1) v), mk_loader (Some (mk_obj (reads st1) v)) (S (reads st1))) /\
     obj_id o <> reads st1).
Proof.
  intros Hok H.
  pose proof (get_config_sets_cache _ _ _ _ H) as Hc.
  pose proof (get_config_fresh_id _ _ _ _ Hok H) as Hid.
  split; [|split].
  - intros file'. apply get_config_cached. exact Hc.
  - intros env file' file''. unfold load_config.
    apply (get_database_config_cached file' file'' st1 o _ Hc).
  - intros v Hv. split; [|lia].
    unfold get_config. rewrite Hc. simpl. rewrite Hv. reflexivity.
Qed.

(** C5: when the loaded configuration has a [database] mapping without the
    requested environment, [get_database_config] and [load_config] raise
    [DatabaseConfigError]. *)
Theorem unknown_environment_raises (file : config_file) (st st1 : loader) (o : config_obj)
    (dbsec : list (string * yaml)) (env : string) :
  get_config false file st = (Ok o, st1) ->
  py_getitem (obj_val o) "database" = Ok (YMap dbsec) ->
  assoc env dbsec = None ->
  (get_database_config file st (Some (YStr env))).1 = Raise DatabaseConfigError /\
  (load_config file st (Some env)).1 = Raise DatabaseConfigError.
Proof.
  intros H Hdb Henv. unfold load_config. simpl option_map.
  unfold get_database_config. rewrite H. cbn [py_bind]. rewrite Hdb. cbn [py_bind].
  unfold py_getitem_v, py_getitem. rewrite Henv. split; reflexivity.
Qed.

(** C9, refuted: an [environment:] line left empty is [None] in Python, and
    [None['current']] raises [TypeError], which the [except KeyError] of
    [get_current_environment] does not catch. *)
Lemma current_environment_null_raises :
  (get_current_environment (FileYaml example_config_null_environment) initial_loader).1
    = Raise TypeError.
Proof. reflexivity. Qed.

(** C9 (as amended): for a mapping configuration without an [environment]
    key, or whose [environment] mapping has no [current] key,
    [get_current_environment] returns ['development'] and [load_config()]
    looks up the development configuration; an [environment] value that is
    not a mapping makes [get_current_environment] raise [TypeError]. *)
Theorem current_environment_default (file : config_file) (st st1 : loader) (o : config_obj)
    (kvs : list (string * yaml)) :
  get_config false file st = (Ok o, st1) ->
  obj_val o = YMap kvs ->
  ((assoc "environment" kvs = None \/
    exists env, assoc "environment" kvs = Some (YMap env) /\ assoc "current" env = None) ->
   get_current_environment file st = (Ok (YStr "development"), st1) /\
   load_config file st None = load_config file st (Some "development")) /\
  (forall v, assoc "environment" kvs = Some v -> (forall m, v <> YMap m) ->
   get_current_environment file st = (Raise TypeError, st1)).
Proof.
  intros H Hv. pose proof (get_config_sets_cache _ _ _ _ H) as Hc.
  assert (Hcur : get_current_environment file st1 = get_current_environment file st).
  { unfold get_current_environment. rewrite H, (get_config_cached _ _ _ Hc). reflexivity. }
  split.
  - intros Hnone.
    assert (Hdev : get_current_environment file st = (Ok (YStr "development"), st1)).
    { unfold get_current_environment. rewrite H, Hv. cbn [py_bind py_getitem].
      destruct Hnone as [Hn|(env & He & Hcu)].
      - rewrite Hn. reflexivity.
      - rewrite He. cbn [py_bind py_getitem]. rewrite Hcu. reflexivity. }
    split; [exact Hdev|].
    unfold load_config, get_database_config. rewrite H. cbn [option_map].
    rewrite Hcur, Hdev. reflexivity.
  - intros v He Hnm. unfold get_current_environment. rewrite H, Hv.
    cbn [py_bind py_getitem]. rewrite He. cbn [py_bind].
    destruct v as [| | | | |m]; try reflexivity. exfalso. exact (Hnm m eq_refl).
Qed.

(** ** Application settings *)

(** C10: with [app] absent (or the sub-key absent), the [ConfigManager]
    accessors fall back to fixed defaults: batch size 100, the threading
    section with [max_workers] 4 and [chunk_size] 1000, and threading
    disabled. *)
Theorem config_manager_defaults (kvs : list (string * yaml)) :
  ((assoc "app" kvs = None \/
    exists app, assoc "app" kvs = Some (YMap app) /\ assoc "batch_size" app = None) ->
   get_batch_size (YMap kvs) = Ok (YInt 100)) /\
  ((assoc "app" kvs = None \/
    exists app, assoc "app" kvs = Some (YMap app) /\ assoc "threading" app = None) ->
   get_threading_config (YMap kvs) = Ok default_threading_config /\
   py_getitem default_threading_config "max_workers" = Ok (YInt 4) /\
   py_getitem default_threading_config "chunk_size" = Ok (YInt 1000) /\
   is_threading_enabled (YMap kvs) = Ok (YBool false)) /\
  (forall app th, assoc "app" kvs = Some (YMap app) -> assoc "threading" app = Some (YMap th) ->
   assoc "enable_threading" th = None ->
   is_threading_enabled (YMap kvs) = Ok (YBool false)).
Proof.
  split; [|split].
  - intros [Ha|(app & Ha & Hb)]; unfold get_batch_size; cbn [py_get py_bind];
      rewrite Ha; cbn [py_bind py_get assoc]; [reflexivity|]. rewrite Hb. reflexivity.
  - intros Hth.
    assert (Htc : get_threading_config (YMap kvs) = Ok default_threading_config).
    { destruct Hth as [Ha|(app & Ha & Ht)]; unfold get_threading_config;
        cbn [py_get py_bind]; rewrite Ha; cbn [py_bind py_get assoc]; [reflexivity|].
      rewrite Ht. reflexivity. }
    split; [exact Htc|]. split; [reflexivity|]. split; [reflexivity|].
    unfold is_threading_enabled. rewrite Htc. reflexivity.
  - intros app th Ha Ht He. unfold is_threading_enabled, get_threading_config.
    cbn [py_get py_bind]. rewrite Ha. cbn [py_bind py_get]. rewrite Ht.
    cbn [py_bind py_get]. rewrite He. reflexivity.
Qed.

(** ** Connection scopes *)

Module ConnectionScopeFacts.

Import ConnectionScope.

(** C7, refuted: a [KeyboardInterrupt] raised in the with-block is not an
    [Exception]; the pooled connection goes back to the pool without a
    rollback. *)
Lemma base_exception_skips_rollback :
  pool_get_connection Returned (inl 1%nat) (fun _ => Raised keyboard_interrupt) Returned
  = ([Acquired 1; BodyRan 1; Released 1], Raised keyboard_interrupt) /\
  ~ In (RollbackCalled 1) [Acquired 1; BodyRan 1; Released 1].
Proof.
  split; [reflexivity|]. simpl. intros [H|[H|[H|[]]]]; discriminate.
Qed.

Lemma guarded_use_spec (c : nat) (body : nat -> outcome) (rollback : outcome) :
  (body c = Returned ->
   guarded_use (inl c) body rollback = ([Acquired c; BodyRan c; Released c], Returned)) /\
  (forall x, body c = Raised x -> exc_kind x = StdException ->
   (guarded_use (inl c) body rollback).1 = [Acquired c; BodyRan c; RollbackCalled c; Released c] /\
   (rollback = Returned -> (guarded_use (inl c) body rollback).2 = Raised x) /\
   (forall r, rollback = Raised r -> (guarded_use (inl c) body rollback).2 = Raised r)) /\
  (forall x, body c = Raised x -> exc_kind x = BaseOnly ->
   guarded_use (inl c) body rollback = ([Acquired c; BodyRan c; Released c], Raised x)).
Proof.
  unfold guarded_use, caught_by_except_Exception. split; [|split].
  - intros Hb. rewrite Hb. reflexivity.
  - intros x Hb Hk. rewrite Hb, Hk.
    split; [destruct rollback; reflexivity|].
    split; [intros ->; reflexivity|]. intros r ->. reflexivity.
  - intros x Hb Hk. rewrite Hb, Hk. reflexivity.
Qed.

End ConnectionScopeFacts.

Import ConnectionScope.

(** C7 (as amended): once a connection [c] is obtained, in pooled and in
    single-connection mode: if the with-block raises an [Exception]
    subclass, [rollback()] is called on [c] before [c] is released, then
    that exception propagates (or, if the rollback itself raises, the
    rollback's exception); if it raises a [BaseException] outside
    [Exception], [c] is released without rollback and the exception
    propagates; if it returns, [c] is released without rollback. *)
Theorem connection_rollback_before_release (c : nat) (body : nat -> outcome)
    (rollback : outcome) :
  let pooled := pool_get_connection Returned (inl c) body rollback in
  let single := single_get_connection Returned (inl c) body rollback in
  (forall x, body c = Raised x -> exc_kind x = StdException ->
     pooled.1 = [Acquired c; BodyRan c; RollbackCalled c; Released c] /\
     single.1 = [Acquired c; BodyRan c; RollbackCalled c; Released c] /\
     (rollback = Returned -> pooled.2 = Raised x /\ single.2 = Raised x) /\
     (forall r, rollback = Raised r -> pooled.2 = Raised r /\ single.2 = Raised r)) /\
  (forall x, body c = Raised x -> exc_kind x = BaseOnly ->
     pooled = ([Acquired c; BodyRan c; Released c], Raised x) /\
     single = ([Acquired c; BodyRan c; Released c], Raised x)) /\
  (body c = Returned ->
     pooled = ([Acquired c; BodyRan c; Released c], Returned) /\
     single = ([Acquired c; BodyRan c; Released c], Returned)).
Proof.
  cbv zeta. unfold pool_get_connection, single_get_connection.
  destruct (ConnectionScopeFacts.guarded_use_spec c body rollback) as (Hret & Hstd & Hbase).
  split; [|split].
  - intros x Hb Hk. destruct (Hstd x Hb Hk) as (Hev & Hr & Hrr).
    split; [exact Hev|]. split; [exact Hev|].
    split; [intros Hrb; split; apply Hr; exact Hrb|].
    intros r Hrb. split; apply Hrr; exact Hrb.
  - intros x Hb Hk. split; apply Hbase; assumption.
  - intros Hb. split; apply Hret; exact Hb.
Qed.

(** ** Witnesses *)

Lemma threaded_insert_total_witness :
  py_getitem (example_threading 4 2) "max_workers" = Ok (YInt 4) /\
  py_getitem (example_threading 4 2) "chunk_size" = Ok (YInt 2) /\ 0 < 2 /\
  tr_total (insert_raw_data_threaded_run example_env (Ok (example_threading 4 2))
              (Ok (YInt 100)) [1; 0]%nat example_rooms "agoda_room" example_world) = 3%nat.
Proof.
  split; [reflexivity|]. split; [reflexivity|]. split; [lia|].
  destruct (threaded_insert_total example_env (example_threading 4 2) (Ok (YInt 100))
              [1; 0]%nat example_rooms "agoda_room" example_world (YInt 4) 2
              eq_refl eq_refl ltac:(lia)) as (chunks & Hcd & _ & _ & Hrun).
  vm_compute in Hcd. injection Hcd as Hcd. subst chunks.
  apply Hrun.
  - vm_compute. exact (perm_swap 0%nat 1%nat []).
  - vm_compute. repeat constructor.
Defined.

Lemma chunk_failure_reported_false_witness :
  insert_raw_data_threaded example_env_reject_200 (Ok (example_threading 4 1)) (Ok (YInt 100))
    [0; 1; 2]%nat example_rooms "agoda_room" example_world = Ok false.
Proof.
  apply (proj1 chunk_failure_reported_false) with (i := 2%nat) (ex := DatabaseError).
  vm_compute. right. right. left. reflexivity.
Defined.

Lemma sequential_threaded_same_rows_witness :
  row_count (insert_raw_data example_env (Ok (YInt 100)) example_rooms "agoda_room"
               example_world).2 "agoda_room"
  = row_count (tr_world (insert_raw_data_threaded_run example_env
      (Ok (example_threading 4 2)) (Ok (YInt 100)) [1; 0]%nat example_rooms "agoda_room"
      example_world)) "agoda_room".
Proof.
  apply (sequential_threaded_same_rows example_env (example_threading 4 2) (Ok (YInt 100))
           [1; 0]%nat example_rooms "agoda_room" example_world _ (YInt 4) 2
           [[[("room_name", YStr "Deluxe"); ("price", YInt 100)];
             [("room_name", YStr "Twin"); ("price", YInt 80)]];
            [[("room_name", YStr "Suite"); ("price", YInt 200)]]]).
  - reflexivity.
  - reflexivity.
  - lia.
  - vm_compute. reflexivity.
  - vm_compute. exact (perm_swap 0%nat 1%nat []).
  - vm_compute. reflexivity.
  - vm_compute. reflexivity.
Defined.

Lemma create_table_idempotent_witness :
  exists t tb w2,
    (match @None string with Some n => Ok n | None => Ok "agoda_room" end) = Ok t /\
    w_tables (create_table example_env (Ok "agoda_room") None empty_world).2 !! t = Some tb /\
    create_table example_env (Ok "agoda_room") None
      (create_table example_env (Ok "agoda_room") None empty_world).2 = (Ok true, w2) /\
    w_tables w2 = w_tables (create_table example_env (Ok "agoda_room") None empty_world).2.
Proof.
  apply (create_table_idempotent example_env (Ok "agoda_room") None empty_world).
  vm_compute. reflexivity.
Defined.

Lemma get_config_cached_identity_witness :
  get_config false FileMissing (mk_loader (Some (mk_obj 0 example_config)) 1)
  = (Ok (mk_obj 0 example_config), mk_loader (Some (mk_obj 0 example_config)) 1).
Proof.
  apply (proj1 (get_config_cached_identity (FileYaml example_config) initial_loader
                  (mk_loader (Some (mk_obj 0 example_config)) 1) (mk_obj 0 example_config)
                  ltac:(intros o H; discriminate H) eq_refl)).
Defined.

Lemma unknown_environment_raises_witness :
  (load_config (FileYaml example_config) initial_loader (Some "production")).1
    = Raise DatabaseConfigError.
Proof.
  apply (unknown_environment_raises (FileYaml example_config) initial_loader
           (mk_loader (Some (mk_obj 0 example_config)) 1) (mk_obj 0 example_config)
           [("development", YMap [("host", YStr "localhost"); ("port", YInt 5432)])]
           "production"); reflexivity.
Defined.

Lemma current_environment_default_witness :
  get_current_environment (FileYaml example_config_no_environment) initial_loader
  = (Ok (YStr "development"),
     mk_loader (Some (mk_obj 0 example_config_no_environment)) 1).
Proof.
  apply (current_environment_default (FileYaml example_config_no_environment) initial_loader
           (mk_loader (Some (mk_obj 0 example_config_no_environment)) 1)
           (mk_obj 0 example_config_no_environment) [("database", example_database)]
           eq_refl eq_refl).
  left. reflexivity.
Defined.

Lemma config_manager_defaults_witness :
  is_threading_enabled (YMap [("database", example_database)]) = Ok (YBool false).
Proof.
  apply (proj2 (proj1 (proj2 (config_manager_defaults [("database", example_database)])) 
                  (or_introl eq_refl))).
Defined.

Lemma connection_rollback_before_release_witness :
  (pool_get_connection Returned (inl 1%nat) (fun _ => Raised (mk_exc StdException 7)) Returned).2
  = Raised (mk_exc StdException 7).
Proof.
  apply (proj1 (proj1 (proj2 (proj2 (proj1 (connection_rollback_before_release 1
           (fun _ => Raised (mk_exc StdException 7)) Returned) (mk_exc StdException 7)
           eq_refl eq_refl))) eq_refl)).
Defined.

(** ** Further properties: helpers *)

Section ExtraHelpers.

Lemma py_mapM_Forall2 {A B} (f : A -> py_result B) (l : list A) (l' : list B) :
  py_mapM f l = Ok l' -> Forall2 (fun x y => f x = Ok y) l l'.
Proof.
  revert l'. induction l as [|x r IH]; intros l' H; simpl in H.
  - injection H as <-. constructor.
  - destruct (f x) as [y|ex] eqn:Hf; [|discriminate]. simpl in H.
    destruct (py_mapM f r) as [ys|ex] eqn:Hr; [|discriminate]. simpl in H.
    injection H as <-. constructor; [exact Hf|]. apply IH. reflexivity.
Qed.

Lemma py_mapM_raise {A B} (f : A -> py_result B) (l : list A) x ex :
  In x l -> f x = Raise ex -> exists ex', py_mapM f l = Raise ex'.
Proof.
  induction l as [|y r IH]; intros Hin Hf; [destruct Hin|]. simpl.
  destruct Hin as [<-|Hin].
  - rewrite Hf. eexists; reflexivity.
  - destruct (f y) as [z|ex']; cbn [py_bind]; [|eexists; reflexivity].
    destruct (IH Hin Hf) as [ex' ->]. eexists; reflexivity.
Qed.

(** A bound row lists the placeholders' columns, each with the record's value. *)
Lemma bind_row_spec columns r row :
  bind_row columns r = Ok row ->
  keys row = columns /\ Forall (fun cv => assoc cv.1 r = Some cv.2) row.
Proof.
  unfold bind_row, keys. intros H. apply py_mapM_Forall2 in H.
  induction H as [|c cv cs rows Hc Hr IH]; [split; [reflexivity|constructor]|].
  destruct (assoc c r) as [v|] eqn:Ha; [|discriminate]. injection Hc as <-.
  destruct IH as [IHk IHf]. split; [simpl; f_equal; exact IHk|].
  constructor; [exact Ha|exact IHf].
Qed.

Lemma bind_row_missing columns r c :
  In c columns -> assoc c r = None -> exists ex, bind_row columns r = Raise ex.
Proof.
  intros Hin Ha. unfold bind_row. eapply py_mapM_raise; [exact Hin|]. rewrite Ha. reflexivity.
Qed.

Lemma execute_batch_bind_fail e tables t columns rows ps ex :
  py_mapM (bind_row columns) rows = Raise ex ->
  exists ex', execute_batch e tables t columns rows ps = Raise ex'.
Proof.
  unfold execute_batch. destruct rows as [|r0 rs]; [discriminate|]. intros H.
  destruct (py_int ps) as [z|]; [|eexists; reflexivity].
  destruct (z <=? 0); [eexists; reflexivity|]. rewrite H. eexists; reflexivity.
Qed.

Lemma execute_batch_ok e tables t columns r0 rs ps tables' :
  execute_batch e tables t columns (r0 :: rs) ps = Ok tables' ->
  exists tb vals,
    tables !! t = Some tb /\
    py_mapM (bind_row columns) (r0 :: rs) = Ok vals /\
    tables' = <[t := mk_table (tcols tb) (tcomments tb) (trows tb ++ vals)]> tables.
Proof.
  unfold execute_batch.
  destruct (py_int ps) as [z|]; [|discriminate].
  destruct (z <=? 0); [discriminate|].
  destruct (py_mapM (bind_row columns) (r0 :: rs)) as [vals|ex] eqn:Hv; [|discriminate].
  cbn [py_bind]. destruct (tables !! t) as [tb|] eqn:Ht; [|discriminate].
  destruct (bool_decide (columns = [])); [discriminate|].
  destruct (negb _); [discriminate|]. destruct (negb _); [discriminate|].
  intros H. injection H as <-. exists tb, vals. split; [reflexivity|]. split; reflexivity.
Qed.





Lemma chunk_count_bounds (m : nat) (chunks : list (list record)) :
  (forall j ch, chunks !! j = Some ch ->
     (0 < length ch <= m)%nat /\ (S j < length chunks -> length ch = m)%nat) ->
  chunks <> [] ->
  (m * length chunks - m < length (concat chunks) <= m * length chunks)%nat.
Proof.
  induction chunks as [|c cs IH]; intros Hsz Hne; [congruence|].
  destruct cs as [|c' cs'].
  - destruct (Hsz 0%nat c eq_refl) as [[H1 H2] _]. cbn [concat length].
    rewrite length_app. cbn [length]. lia.
  - destruct (Hsz 0%nat c eq_refl) as [_ Hfull].
    specialize (Hfull ltac:(cbn [length]; lia)).
    assert (IH' : (m * length (c' :: cs') - m < length (concat (c' :: cs'))
                   <= m * length (c' :: cs'))%nat).
    { apply IH; [|discriminate]. intros j ch Hj.
      destruct (Hsz (S j) ch Hj) as [A B]. split; [exact A|].
      intros Hl. apply B. cbn [length] in *. lia. }
    cbn [concat]. rewrite length_app. cbn [concat length] in *.
    rewrite Nat.mul_succ_r in *. lia.
Qed.

Lemma ceil_from_bounds (m k L : nat) :
  (0 < m)%nat -> (m * k - m < L <= m * k)%nat -> k = ((L + m - 1) / m)%nat.
Proof.
  intros Hm [H1 H2].
  apply (Nat.div_unique _ _ _ (L + m - 1 - m * k)); lia.
Qed.

Lemma as_completed_loop_forallb evs total :
  (as_completed_loop evs total).1 = forallb (fun ev => is_inserted ev.2) evs.
Proof.
  revert total. induction evs as [|[i o] rest IH]; intros total; simpl; [reflexivity|].
  destruct o; simpl; [apply IH|reflexivity].
Qed.

(** A chunk size of zero: [range(0, n, 0)] raises before any chunk runs. *)
Lemma threaded_run_chunk_size_zero e tc bs order r0 rs t w mw :
  py_getitem tc "max_workers" = Ok mw ->
  py_getitem tc "chunk_size" = Ok (YInt 0) ->
  insert_raw_data_threaded_run e (Ok tc) bs order (r0 :: rs) t w = mk_run (Raise ValueError) 0 [] w.
Proof.
  intros Hmw Hcs. cbn [insert_raw_data_threaded_run py_bind]. rewrite Hmw. cbn [py_bind].
  rewrite Hcs. reflexivity.
Qed.


End ExtraHelpers.

(** ** Further properties of the code *)

(** [ConfigManager.load_config] keeps a document it has read: once a call
    returned a document other than [None], every later call returns it
    without reading the file again, whatever the file now holds. *)
Theorem cm_load_config_cached (file : cm_file) (cm cm1 : config_manager) (v : yaml) :
  cm_load_config file cm = (inr v, cm1) -> v <> YNull ->
  forall file', cm_load_config file' cm1 = (inr v, cm1).
Proof.
  unfold cm_load_config. intros H Hv file'.
  destruct (cm_cache cm) as [c|] eqn:Hc.
  - injection H as <- <-. rewrite Hc. reflexivity.
  - destruct file as [| |v0]; try discriminate.
    injection H as <- <-. destruct v0; try (exfalso; apply Hv; reflexivity); reflexivity.
Qed.

(** [ConfigManager.load_config] caches nothing on a missing file, and an
    empty file yields [None], which is stored as "nothing cached": every
    accessor then raises ([AttributeError], or [TypeError] for
    [get_table_name]) and the next call parses the file again. *)
Theorem cm_empty_or_missing_not_cached (cm : config_manager) :
  cm_cache cm = None ->
  cm_load_config CMMissing cm = (inl FileNotFoundError, cm) /\
  (let cm1 := mk_cm None (S (cm_reads cm)) in
   cm_load_config (CMYaml YNull) cm = (inr YNull, cm1) /\
   cm_call get_batch_size (CMYaml YNull) cm = (inr (Raise AttributeError), cm1) /\
   cm_call get_threading_config (CMYaml YNull) cm = (inr (Raise AttributeError), cm1) /\
   cm_call is_threading_enabled (CMYaml YNull) cm = (inr (Raise AttributeError), cm1) /\
   cm_call get_log_level (CMYaml YNull) cm = (inr (Raise AttributeError), cm1) /\
   cm_call get_connection_pool_config (CMYaml YNull) cm = (inr (Raise AttributeError), cm1) /\
   cm_call get_table_name (CMYaml YNull) cm = (inr (Raise TypeError), cm1) /\
   (forall v, cm_load_config (CMYaml v) cm1
              = (inr v, mk_cm (match v with YNull => None | _ => Some v end)
                              (S (S (cm_reads cm)))))).
Proof.
  intros Hc. unfold cm_call, cm_load_config. rewrite Hc.
  split; [reflexivity|]. cbv zeta.
  repeat split; intros; reflexivity.
Qed.

(** The log level defaults to ['INFO'] and the connection pool settings to
    2 to 10 connections (timeouts 30 and 300) when the [app] section or the
    key is absent; a value that is present is returned as it is, unchecked. *)
Theorem cm_log_level_pool_defaults (kvs : list (string * yaml)) :
  ((assoc "app" kvs = None \/
    exists app, assoc "app" kvs = Some (YMap app) /\ assoc "log_level" app = None) ->
   get_log_level (YMap kvs) = Ok (YStr "INFO")) /\
  ((assoc "app" kvs = None \/
    exists app, assoc "app" kvs = Some (YMap app) /\ assoc "connection_pool" app = None) ->
   get_connection_pool_config (YMap kvs) = Ok default_pool_config /\
   py_getitem default_pool_config "min_connections" = Ok (YInt 2) /\
   py_getitem default_pool_config "max_connections" = Ok (YInt 10)) /\
  (forall app v, assoc "app" kvs = Some (YMap app) -> assoc "log_level" app = Some v ->
   get_log_level (YMap kvs) = Ok v) /\
  (forall app v, assoc "app" kvs = Some (YMap app) -> assoc "connection_pool" app = Some v ->
   get_connection_pool_config (YMap kvs) = Ok v).
Proof.
  split; [|split; [|split]].
  - intros [Ha|(app & Ha & Hl)]; unfold get_log_level; cbn [py_get py_bind];
      rewrite Ha; cbn [py_bind py_get assoc]; [reflexivity|]. rewrite Hl. reflexivity.
  - intros Hp. split; [|split; reflexivity].
    destruct Hp as [Ha|(app & Ha & Hl)]; unfold get_connection_pool_config;
      cbn [py_get py_bind]; rewrite Ha; cbn [py_bind py_get assoc]; [reflexivity|].
    rewrite Hl. reflexivity.
  - intros app v Ha Hl. unfold get_log_level. cbn [py_get py_bind]. rewrite Ha.
    cbn [py_bind py_get]. rewrite Hl. reflexivity.
  - intros app v Ha Hl. unfold get_connection_pool_config. cbn [py_get py_bind]. rewrite Ha.
    cbn [py_bind py_get]. rewrite Hl. reflexivity.
Qed.

(** The table name has no default: without [database] or without
    [database.table_name], [get_table_name] raises [KeyError], and
    [create_table()], [insert_data], [insert_data_single_thread] and
    [insert_data_multi_thread] called without a table name let that
    [KeyError] propagate, even for an empty record list, before touching the
    database (no temporary pool is closed either). *)
Theorem table_name_required (py_str : yaml -> string) (e : dbenv) (kvs : list (string * yaml))
    (order : list nat) (room_list : list record) (w : world) :
  (assoc "database" kvs = None \/
   exists db, assoc "database" kvs = Some (YMap db) /\ assoc "table_name" db = None) ->
  get_table_name (YMap kvs) = Raise KeyError /\
  pipeline_create_table py_str e (YMap kvs) None w = (Raise KeyError, w) /\
  pipeline_insert_data py_str e (YMap kvs) order room_list None w = (Raise KeyError, w) /\
  pipeline_insert_single py_str e (YMap kvs) room_list None w = (Raise KeyError, w) /\
  pipeline_insert_multi py_str e (YMap kvs) order room_list None w = (Raise KeyError, w, false).
Proof.
  intros Hdb.
  assert (Hk : get_table_name (YMap kvs) = Raise KeyError).
  { destruct Hdb as [Hd|(db & Hd & Ht)]; unfold get_table_name; cbn [py_getitem];
      rewrite Hd; [reflexivity|]. cbn [py_bind py_getitem]. rewrite Ht. reflexivity. }
  unfold pipeline_create_table, pipeline_insert_data, pipeline_insert_single,
    pipeline_insert_multi, resolve_table.
  rewrite Hk. cbn [py_bind]. repeat split; reflexivity.
Qed.

(** A section or key that is present but empty ([None]) gets no default:
    [app:] left empty makes every [app] accessor raise [AttributeError];
    [threading:] left empty makes [get_threading_config] return [None] and
    [is_threading_enabled] raise [AttributeError]; [batch_size:] left empty
    makes every non-empty sequential insert fail with [False], the tables
    unchanged. *)
Theorem empty_settings_not_defaulted (kvs : list (string * yaml)) :
  (assoc "app" kvs = Some YNull ->
   get_batch_size (YMap kvs) = Raise AttributeError /\
   get_threading_config (YMap kvs) = Raise AttributeError /\
   is_threading_enabled (YMap kvs) = Raise AttributeError /\
   get_log_level (YMap kvs) = Raise AttributeError /\
   get_connection_pool_config (YMap kvs) = Raise AttributeError) /\
  (forall app, assoc "app" kvs = Some (YMap app) -> assoc "threading" app = Some YNull ->
   get_threading_config (YMap kvs) = Ok YNull /\
   is_threading_enabled (YMap kvs) = Raise AttributeError) /\
  (forall app, assoc "app" kvs = Some (YMap app) -> assoc "batch_size" app = Some YNull ->
   get_batch_size (YMap kvs) = Ok YNull /\
   forall e r0 rs t w,
     (insert_raw_data e (get_batch_size (YMap kvs)) (r0 :: rs) t w).1 = Ok false /\
     w_tables (insert_raw_data e (get_batch_size (YMap kvs)) (r0 :: rs) t w).2 = w_tables w).
Proof.
  split; [|split].
  - intros Ha. unfold is_threading_enabled, get_threading_config, get_batch_size,
      get_log_level, get_connection_pool_config.
    cbn [py_get py_bind]. rewrite Ha. cbn [py_bind py_get]. repeat split; reflexivity.
  - intros app Ha Ht.
    assert (Htc : get_threading_config (YMap kvs) = Ok YNull).
    { unfold get_threading_config. cbn [py_get py_bind]. rewrite Ha. cbn [py_bind py_get].
      rewrite Ht. reflexivity. }
    split; [exact Htc|]. unfold is_threading_enabled. rewrite Htc. reflexivity.
  - intros app Ha Hb.
    assert (Hbs : get_batch_size (YMap kvs) = Ok YNull).
    { unfold get_batch_size. cbn [py_get py_bind]. rewrite Ha. cbn [py_bind py_get].
      rewrite Hb. reflexivity. }
    split; [exact Hbs|]. intros e r0 rs t w. rewrite Hbs. unfold insert_raw_data.
    destruct (connect_ok e); cbn [negb]; [|split; reflexivity].
    cbn [py_bind execute_batch py_int]. split; reflexivity.
Qed.


(** [insert_data_multi_thread] outside threading mode never raises once
    the table name is known: an exception of the threaded insert becomes
    [False] and the temporary pool is closed; in threading mode the same
    exception propagates.  With [chunk_size: 0] and a non-empty list the
    first returns [False] and the second raises [ValueError]. *)
Theorem insert_multi_thread_errors (py_str : yaml -> string) (e : dbenv) (config : yaml)
    (order : list nat) (room_list : list record) (target : option string) (t : string)
    (w : world) (v : yaml) :
  resolve_table py_str config target = Ok t ->
  is_threading_enabled config = Ok v ->
  (py_truthy v = false ->
   exists b, pipeline_insert_multi py_str e config order room_list target w
             = (Ok b, tr_world (threaded_with e config order room_list t w), true)) /\
  (py_truthy v = true ->
   pipeline_insert_multi py_str e config order room_list target w
   = (tr_result (threaded_with e config order room_list t w),
      tr_world (threaded_with e config order room_list t w), false)) /\
  (forall tc mw r0 rs, room_list = r0 :: rs ->
   get_threading_config config = Ok tc ->
   py_getitem tc "max_workers" = Ok mw -> py_getitem tc "chunk_size" = Ok (YInt 0) ->
   pipeline_insert_multi py_str e config order room_list target w
   = (if py_truthy v then Raise ValueError else Ok false, w, negb (py_truthy v))).
Proof.
  intros Hr Hv. unfold pipeline_insert_multi, threading_mode. rewrite Hr, Hv. cbn [py_bind].
  split; [|split].
  - intros Hf. rewrite Hf.
    destruct (tr_result (threaded_with e config order room_list t w)) as [b|ex];
      eexists; reflexivity.
  - intros Ht. rewrite Ht. reflexivity.
  - intros tc mw r0 rs -> Htc Hmw Hcs. unfold threaded_with. rewrite Htc.
    rewrite (threaded_run_chunk_size_zero e tc (get_batch_size config) order r0 rs t w mw Hmw Hcs).
    destruct (py_truthy v); reflexivity.
Qed.

(** A transaction that fails leaves the committed tables as they were: a
    sequential insert or a [create_table] that does not return [True], and
    a chunk insert that raised. *)
Theorem failed_transactions_leave_tables (e : dbenv) (bs : py_result yaml) (t : string)
    (w : world) :
  (forall room_list, (insert_raw_data e bs room_list t w).1 <> Ok true ->
   w_tables (insert_raw_data e bs room_list t w).2 = w_tables w) /\
  (forall cfg table_name, (create_table e cfg table_name w).1 <> Ok true ->
   w_tables (create_table e cfg table_name w).2 = w_tables w) /\
  (forall chunk i ex w1, _insert_chunk e bs chunk t i w = (Failed ex, w1) ->
   w_tables w1 = w_tables w).
Proof.
  split; [|split].
  - intros room_list. unfold insert_raw_data. destruct room_list as [|r0 rs];
      [intros H; exfalso; apply H; reflexivity|].
    destruct (connect_ok e); cbn [negb]; [|intros; reflexivity].
    destruct (py_bind bs _); cbn [fst snd]; [intros H; exfalso; apply H; reflexivity|].
    intros; reflexivity.
  - intros cfg table_name. unfold create_table.
    destruct (match table_name with Some t0 => Ok t0 | None => cfg end); [|intros; reflexivity].
    destruct (connect_ok e); cbn [negb]; [|intros; reflexivity].
    destruct (run_comments _ _ _); cbn [fst snd]; [intros H; exfalso; apply H; reflexivity|].
    intros; reflexivity.
  - intros chunk i ex w1. unfold _insert_chunk. destruct chunk as [|r0 rs]; [discriminate|].
    destruct bs as [b|ex']; [|intros H; injection H as _ <-; reflexivity].
    destruct (getconn_ok e i); cbn [negb]; [|intros H; injection H as _ <-; reflexivity].
    destruct (execute_batch _ _ _ _ _ _); [discriminate|].
    intros H. injection H as _ <-. reflexivity.
Qed.

(** The sequential insert binds every record against the keys of the first
    record: on success the target table gains, after its old rows, one row
    per record holding exactly those columns in that order with the
    record's values (other keys are dropped); a record lacking one of those
    keys makes the whole insert return [False] with the tables unchanged. *)
Theorem insert_raw_data_first_keys (e : dbenv) (bs : py_result yaml) (r0 : record)
    (rs : list record) (t : string) (w : world) :
  (forall w1, insert_raw_data e bs (r0 :: rs) t w = (Ok true, w1) ->
   exists tb vals,
     w_tables w !! t = Some tb /\
     w_tables w1 = <[t := mk_table (tcols tb) (tcomments tb) (trows tb ++ vals)]> (w_tables w) /\
     Forall2 (fun r row => keys row = keys r0 /\ Forall (fun cv => assoc cv.1 r = Some cv.2) row)
             (r0 :: rs) vals) /\
  (forall r c, In r (r0 :: rs) -> In c (keys r0) -> assoc c r = None ->
   (insert_raw_data e bs (r0 :: rs) t w).1 = Ok false /\
   w_tables (insert_raw_data e bs (r0 :: rs) t w).2 = w_tables w).
Proof.
  split.
  - intros w1. unfold insert_raw_data. destruct (connect_ok e); cbn [negb]; [|discriminate].
    destruct bs as [b|ex]; cbn [py_bind]; [|discriminate].
    destruct (execute_batch e (w_tables w) t (keys r0) (r0 :: rs) b) as [tables'|ex] eqn:He;
      [|discriminate].
    intros H. injection H as <-.
    destruct (execute_batch_ok _ _ _ _ _ _ _ _ He) as (tb & vals & Ht & Hv & ->).
    exists tb, vals. split; [exact Ht|]. split; [reflexivity|].
    apply py_mapM_Forall2 in Hv. eapply Forall2_impl; [exact Hv|].
    intros r row Hb. apply bind_row_spec. exact Hb.
  - intros r c Hr Hc Ha.
    destruct (bind_row_missing (keys r0) r c Hc Ha) as [ex Hb].
    destruct (py_mapM_raise (bind_row (keys r0)) (r0 :: rs) r ex Hr Hb) as [ex' Hm].
    unfold insert_raw_data. destruct (connect_ok e); cbn [negb]; [|split; reflexivity].
    destruct bs as [b|ex'']; cbn [py_bind]; [|split; reflexivity].
    destruct (execute_batch_bind_fail e (w_tables w) t (keys r0) (r0 :: rs) b ex' Hm)
      as [ex3 ->].
    split; reflexivity.
Qed.



(** [_chunk_data]: a chunk size of 0 raises [ValueError], a negative one
    gives no chunk at all, and a positive size C gives ceil(n / C) chunks
    for n records. *)
Theorem chunk_data_edges (data : list record) (C : Z) :
  _chunk_data data 0 = Raise ValueError /\
  (C < 0 -> _chunk_data data C = Ok []) /\
  (0 < C -> exists chunks, _chunk_data data C = Ok chunks /\
     length chunks = ((length data + Z.to_nat C - 1) / Z.to_nat C)%nat).
Proof.
  split; [reflexivity|]. split.
  - intros HC. unfold _chunk_data, py_range.
    rewrite (proj2 (Z.eqb_neq C 0)) by lia. rewrite (proj2 (Z.ltb_ge 0 C)) by lia.
    cbn [py_bind]. destruct (Z.to_nat _) as [|f]; [reflexivity|]. cbn [range_down].
    rewrite (proj2 (Z.ltb_ge _ _)) by lia. reflexivity.
  - intros HC. destruct (chunk_data_spec data C HC) as (chunks & Hcd & Hcat & Hsz).
    exists chunks. split; [exact Hcd|].
    destruct chunks as [|c cs].
    + simpl in Hcat. subst data. cbn [length]. rewrite Nat.div_small; [reflexivity|lia].
    + apply ceil_from_bounds; [lia|]. rewrite <- Hcat.
      apply chunk_count_bounds; [exact Hsz|discriminate].
Qed.

(** The threaded insert commits chunk by chunk and never undoes a chunk:
    whatever it returns, [False] included, the target table ends with its
    old rows plus the records of every chunk whose insert succeeded. *)
Theorem threaded_committed_chunks_persist (e : dbenv) (tc bs : py_result yaml)
    (order : list nat) (room_list : list record) (t : string) (w : world) :
  row_count (tr_world (insert_raw_data_threaded_run e tc bs order room_list t w)) t
  = (row_count w t
     + list_sum (map (fun ev => count_of ev.2)
                     (tr_events (insert_raw_data_threaded_run e tc bs order room_list t w))))%nat.
Proof.
  unfold insert_raw_data_threaded_run. destruct room_list as [|r0 rs]; [simpl; lia|].
  destruct (py_bind tc _) as [[mw chunks]|ex]; [|simpl; lia].
  destruct (executor_accepts mw); cbn [negb]; [|simpl; lia].
  destruct (run_chunks e bs chunks t order w) as [evs w'] eqn:Hrun.
  destruct (as_completed_loop evs 0) as [b total].
  exact (run_chunks_rows _ _ _ _ _ _ _ _ Hrun).
Qed.

(** Once the threading configuration is valid and the executor starts, the
    threaded insert waits for every scheduled chunk and returns [True]
    exactly when all of them succeeded. *)
Theorem threaded_true_iff_all_inserted (e : dbenv) (tc : yaml) (bs : py_result yaml)
    (order : list nat) (r0 : record) (rs : list record) (t : string) (w : world)
    (mw cs : yaml) (C : Z) :
  py_getitem tc "max_workers" = Ok mw -> py_getitem tc "chunk_size" = Ok cs ->
  py_int cs = Some C -> C <> 0 -> executor_accepts mw = true ->
  tr_result (insert_raw_data_threaded_run e (Ok tc) bs order (r0 :: rs) t w)
  = Ok (forallb (fun ev => is_inserted ev.2)
                (tr_events (insert_raw_data_threaded_run e (Ok tc) bs order (r0 :: rs) t w))) /\
  map fst (tr_events (insert_raw_data_threaded_run e (Ok tc) bs order (r0 :: rs) t w)) = order.
Proof.
  intros Hmw Hcs Hint HC Hacc.
  destruct (chunk_data_ok (r0 :: rs) C HC) as [chunks Hcd].
  rewrite (threaded_run_unfold e tc bs order r0 rs t w mw cs C chunks Hmw Hcs Hint Hcd), Hacc.
  pose proof (run_chunks_indices e bs chunks t order w) as Hidx.
  destruct (run_chunks e bs chunks t order w) as [evs w'] eqn:Hrun. simpl in Hidx.
  pose proof (as_completed_loop_forallb evs 0) as Hf.
  destruct (as_completed_loop evs 0) as [b total]. simpl in *. subst b.
  split; [reflexivity|exact Hidx].
Qed.

(** The threading settings are checked before any chunk runs: a missing
    [max_workers] or [chunk_size] propagates its [KeyError], [chunk_size: 0]
    raises [ValueError], a non-integer chunk size raises [TypeError], and a
    [max_workers] the executor refuses (0, negative, not a number) returns
    [False]; in every case the database is untouched. *)
Theorem threaded_config_errors (e : dbenv) (tc : yaml) (bs : py_result yaml) (order : list nat)
    (r0 : record) (rs : list record) (t : string) (w : world) :
  (forall ex, py_getitem tc "max_workers" = Raise ex ->
   insert_raw_data_threaded_run e (Ok tc) bs order (r0 :: rs) t w = mk_run (Raise ex) 0 [] w) /\
  (forall mw ex, py_getitem tc "max_workers" = Ok mw -> py_getitem tc "chunk_size" = Raise ex ->
   insert_raw_data_threaded_run e (Ok tc) bs order (r0 :: rs) t w = mk_run (Raise ex) 0 [] w) /\
  (forall mw, py_getitem tc "max_workers" = Ok mw -> py_getitem tc "chunk_size" = Ok (YInt 0) ->
   insert_raw_data_threaded_run e (Ok tc) bs order (r0 :: rs) t w
   = mk_run (Raise ValueError) 0 [] w) /\
  (forall mw cs, py_getitem tc "max_workers" = Ok mw -> py_getitem tc "chunk_size" = Ok cs ->
   py_int cs = None ->
   insert_raw_data_threaded_run e (Ok tc) bs order (r0 :: rs) t w
   = mk_run (Raise TypeError) 0 [] w) /\
  (forall mw cs C, py_getitem tc "max_workers" = Ok mw -> py_getitem tc "chunk_size" = Ok cs ->
   py_int cs = Some C -> C <> 0 -> executor_accepts mw = false ->
   insert_raw_data_threaded_run e (Ok tc) bs order (r0 :: rs) t w = mk_run (Ok false) 0 [] w).
Proof.
  split; [|split; [|split; [|split]]].
  - intros ex Hmw. cbn [insert_raw_data_threaded_run py_bind]. rewrite Hmw. reflexivity.
  - intros mw ex Hmw Hcs. cbn [insert_raw_data_threaded_run py_bind]. rewrite Hmw.
    cbn [py_bind]. rewrite Hcs. reflexivity.
  - intros mw Hmw Hcs. apply (threaded_run_chunk_size_zero e tc bs order r0 rs t w mw Hmw Hcs).
  - intros mw cs Hmw Hcs Hint. cbn [insert_raw_data_threaded_run py_bind]. rewrite Hmw.
    cbn [py_bind]. rewrite Hcs. cbn [py_bind]. rewrite Hint. reflexivity.
  - intros mw cs C Hmw Hcs Hint HC Hacc.
    destruct (chunk_data_ok (r0 :: rs) C HC) as [chunks Hcd].
    rewrite (threaded_run_unfold e tc bs order r0 rs t w mw cs C chunks Hmw Hcs Hint Hcd), Hacc.
    reflexivity.
Qed.


(** With [environment.current] set to a string s, [get_current_environment]
    returns s and [load_config()] behaves as [load_config(s)]: it returns
    the section [database.s] when there is one. *)
Theorem load_config_current_environment (file : config_file) (st st1 : loader) (o : config_obj)
    (kvs envm : list (string * yaml)) (s : string) :
  get_config false file st = (Ok o, st1) -> obj_val o = YMap kvs ->
  assoc "environment" kvs = Some (YMap envm) -> assoc "current" envm = Some (YStr s) ->
  get_current_environment file st = (Ok (YStr s), st1) /\
  load_config file st None = load_config file st (Some s) /\
  (forall db c, assoc "database" kvs = Some (YMap db) -> assoc s db = Some c ->
   load_config file st None = (Ok c, st1)).
Proof.
  intros H Hv He Hc. pose proof (get_config_sets_cache _ _ _ _ H) as Hcache.
  assert (Hcur : forall st0, get_config false file st0 = (Ok o, st1) ->
                 get_current_environment file st0 = (Ok (YStr s), st1)).
  { intros st0 H0. unfold get_current_environment. rewrite H0, Hv. cbn [py_bind py_getitem].
    rewrite He. cbn [py_bind py_getitem]. rewrite Hc. reflexivity. }
  assert (Heq : load_config file st None = load_config file st (Some s)).
  { unfold load_config, get_database_config. rewrite H. cbn [option_map].
    rewrite (Hcur st1 (get_config_cached _ _ _ Hcache)). reflexivity. }
  split; [exact (Hcur st H)|]. split; [exact Heq|].
  intros db c Hdb Hs. rewrite Heq. unfold load_config, get_database_config. rewrite H.
  cbn [option_map]. rewrite Hv. cbn [py_bind py_getitem]. rewrite Hdb.
  cbn [py_bind py_getitem_v py_getitem]. rewrite Hs. reflexivity.
Qed.

(** [_get_db_config] stores what [load_db_config()] returned before its log
    line reads [host] and [port]: a mapping without [host] makes the first
    call raise [KeyError] yet stays cached, so later calls return it without
    error and without loading again; a complete mapping is returned at once;
    an empty section ([None]) raises [TypeError] and is not cached. *)
Theorem db_config_cached_before_log (c : yaml) :
  (c <> YNull ->
   (_get_db_config (Ok c) None).2 = Some c /\
   (forall loaded, _get_db_config loaded (Some c) = (Ok c, Some c))) /\
  (forall kvs, c = YMap kvs -> assoc "host" kvs = None ->
   _get_db_config (Ok c) None = (Raise KeyError, Some c)) /\
  (forall kvs h p, c = YMap kvs -> assoc "host" kvs = Some h -> assoc "port" kvs = Some p ->
   _get_db_config (Ok c) None = (Ok c, Some c)) /\
  _get_db_config (Ok YNull) None = (Raise TypeError, None).
Proof.
  split; [|split; [|split]].
  - intros Hn. split; [|intros; reflexivity].
    cbn [_get_db_config snd]. destruct c; try reflexivity. exfalso. apply Hn. reflexivity.
  - intros kvs -> Hh. cbn [_get_db_config py_getitem]. rewrite Hh. reflexivity.
  - intros kvs h p -> Hh Hp. cbn [_get_db_config py_getitem]. rewrite Hh. cbn [py_bind].
    rewrite Hp. reflexivity.
  - reflexivity.
Qed.

(** [_initialize_pool] builds the pool once: when building it fails after
    the database configuration was loaded, that configuration stays cached
    and the next attempt uses it whatever [load_db_config()] would now
    give; once built, the pool is kept and nothing is loaded again. *)
Theorem initialize_pool_keeps_config (c pc minconn maxconn : yaml) :
  (exists kvs h p, c = YMap kvs /\ assoc "host" kvs = Some h /\ assoc "port" kvs = Some p) ->
  py_getitem pc "min_connections" = Ok minconn -> py_getitem pc "max_connections" = Ok maxconn ->
  _initialize_pool (Ok c) (Ok pc) false (mk_pm None None) = (Raise DatabaseError, mk_pm (Some c) None) /\
  (forall loaded, _initialize_pool loaded (Ok pc) true (mk_pm (Some c) None)
                  = (Ok tt, mk_pm (Some c) (Some (minconn, maxconn)))) /\
  (forall loaded pool_config pool_ok,
   _initialize_pool loaded pool_config pool_ok (mk_pm (Some c) (Some (minconn, maxconn)))
   = (Ok tt, mk_pm (Some c) (Some (minconn, maxconn)))).
Proof.
  intros (kvs & h & p & -> & Hh & Hp) Hmin Hmax. split; [|split].
  - cbn [_initialize_pool pm_pool pm_db_config _get_db_config py_getitem].
    rewrite Hh. cbn [py_bind]. rewrite Hp. cbn [py_bind]. rewrite Hmin. cbn [py_bind].
    rewrite Hmax. reflexivity.
  - intros loaded. cbn [_initialize_pool pm_pool pm_db_config _get_db_config py_bind].
    rewrite Hmin. cbn [py_bind]. rewrite Hmax. reflexivity.
  - intros. reflexivity.
Qed.

(** ** Witnesses of the further properties *)

Lemma cm_load_config_cached_witness :
  cm_load_config CMMissing (mk_cm (Some example_config) 1)
  = (inr example_config, mk_cm (Some example_config) 1).
Proof.
  apply (cm_load_config_cached (CMYaml example_config) cm_initial
           (mk_cm (Some example_config) 1) example_config eq_refl).
  discriminate.
Defined.

Lemma cm_empty_or_missing_not_cached_witness :
  cm_call get_table_name (CMYaml YNull) cm_initial = (inr (Raise TypeError), mk_cm None 1).
Proof.
  destruct (cm_empty_or_missing_not_cached cm_initial eq_refl)
    as (_ & _ & _ & _ & _ & _ & _ & H & _).
  exact H.
Defined.

Lemma cm_log_level_pool_defaults_witness :
  get_log_level (YMap [("database", example_database)]) = Ok (YStr "INFO") /\
  get_connection_pool_config (YMap [("database", example_database)]) = Ok default_pool_config.
Proof.
  split.
  - apply (proj1 (cm_log_level_pool_defaults [("database", example_database)])).
    left. reflexivity.
  - apply (proj1 (proj2 (cm_log_level_pool_defaults [("database", example_database)]))).
    left. reflexivity.
Defined.

Lemma table_name_required_witness :
  pipeline_insert_data (fun _ => EmptyString) example_env (YMap []) [] [] None empty_world
  = (Raise KeyError, empty_world).
Proof.
  apply (table_name_required (fun _ => EmptyString) example_env [] [] [] empty_world).
  left. reflexivity.
Defined.

Lemma empty_settings_not_defaulted_witness :
  (insert_raw_data example_env (get_batch_size (YMap [("app", YMap [("batch_size", YNull)])]))
     [example_room] "agoda_room" example_world).1 = Ok false.
Proof.
  destruct (proj2 (proj2 (empty_settings_not_defaulted [("app", YMap [("batch_size", YNull)])]))
              [("batch_size", YNull)] eq_refl eq_refl) as [_ H].
  exact (proj1 (H example_env example_room [] "agoda_room" example_world)).
Defined.


Lemma insert_multi_thread_errors_witness :
  pipeline_insert_multi (fun _ => EmptyString) example_env (example_app_config (YBool false) 0)
    [] [example_room] None example_world = (Ok false, example_world, true).
Proof.
  destruct (insert_multi_thread_errors (fun _ => EmptyString) example_env
              (example_app_config (YBool false) 0) [] [example_room] None "agoda_room"
              example_world (YBool false) eq_refl eq_refl) as (_ & _ & H).
  exact (H _ (YInt 4) example_room [] eq_refl eq_refl eq_refl eq_refl).
Defined.

Lemma failed_transactions_leave_tables_witness :
  w_tables (insert_raw_data example_env_reject_200 (Ok (YInt 100)) example_rooms "agoda_room"
              example_world).2 = w_tables example_world.
Proof.
  apply (proj1 (failed_transactions_leave_tables example_env_reject_200 (Ok (YInt 100))
                  "agoda_room" example_world)).
  vm_compute. intros H. discriminate H.
Defined.

Lemma insert_raw_data_first_keys_witness :
  (insert_raw_data example_env (Ok (YInt 100))
     (example_room :: [[("room_name", YStr "Twin")]]) "agoda_room" example_world).1 = Ok false.
Proof.
  exact (proj1 (proj2 (insert_raw_data_first_keys example_env (Ok (YInt 100)) example_room
                         [[("room_name", YStr "Twin")]] "agoda_room" example_world)
                  [("room_name", YStr "Twin")] "price"
                  (or_intror (or_introl eq_refl)) (or_intror (or_introl eq_refl)) eq_refl)).
Defined.



Lemma chunk_data_edges_witness :
  _chunk_data example_rooms (-1) = Ok [] /\
  exists chunks, _chunk_data example_rooms 2 = Ok chunks /\ length chunks = 2%nat.
Proof.
  split.
  - apply (proj1 (proj2 (chunk_data_edges example_rooms (-1)))). lia.
  - destruct (proj2 (proj2 (chunk_data_edges example_rooms 2)) ltac:(lia))
      as (chunks & H1 & H2).
    exists chunks. split; [exact H1|]. rewrite H2. reflexivity.
Defined.

Lemma threaded_true_iff_all_inserted_witness :
  tr_result (insert_raw_data_threaded_run example_env_reject_200 (Ok (example_threading 4 1))
               (Ok (YInt 100)) [0; 1]%nat
               (example_room :: [[("room_name", YStr "Suite"); ("price", YInt 200)]])
               "agoda_room" example_world) = Ok false.
Proof.
  rewrite (proj1 (threaded_true_iff_all_inserted example_env_reject_200 (example_threading 4 1)
                    (Ok (YInt 100)) [0; 1]%nat example_room
                    [[("room_name", YStr "Suite"); ("price", YInt 200)]] "agoda_room"
                    example_world (YInt 4) (YInt 1) 1 eq_refl eq_refl eq_refl
                    ltac:(lia) eq_refl)).
  vm_compute. reflexivity.
Defined.

Lemma threaded_config_errors_witness :
  insert_raw_data_threaded_run example_env (Ok (example_threading 0 2)) (Ok (YInt 100)) []
    [example_room] "agoda_room" example_world = mk_run (Ok false) 0 [] example_world.
Proof.
  apply (proj2 (proj2 (proj2 (proj2 (threaded_config_errors example_env (example_threading 0 2)
           (Ok (YInt 100)) [] example_room [] "agoda_room" example_world))))
           (YInt 0) (YInt 2) 2 eq_refl eq_refl eq_refl).
  - lia.
  - reflexivity.
Defined.


Lemma load_config_current_environment_witness :
  load_config (FileYaml example_config) initial_loader None
  = (Ok (YMap [("host", YStr "localhost"); ("port", YInt 5432)]),
     mk_loader (Some (mk_obj 0 example_config)) 1).
Proof.
  apply (proj2 (proj2 (load_config_current_environment (FileYaml example_config) initial_loader
           (mk_loader (Some (mk_obj 0 example_config)) 1) (mk_obj 0 example_config)
           [("environment", YMap [("current", YStr "development")]);
            ("database", example_database)]
           [("current", YStr "development")] "development"
           eq_refl eq_refl eq_refl eq_refl))
           [("development", YMap [("host", YStr "localhost"); ("port", YInt 5432)])]).
  - reflexivity.
  - reflexivity.
Defined.

Lemma db_config_cached_before_log_witness :
  _get_db_config (Ok (YMap [("port", YInt 5432)])) None
  = (Raise KeyError, Some (YMap [("port", YInt 5432)])).
Proof.
  apply (proj1 (proj2 (db_config_cached_before_log (YMap [("port", YInt 5432)])))
           [("port", YInt 5432)]); reflexivity.
Defined.

Lemma initialize_pool_keeps_config_witness :
  _initialize_pool (Raise DatabaseConfigError) (Ok default_pool_config) true
    (mk_pm (Some (YMap [("host", YStr "localhost"); ("port", YInt 5432)])) None)
  = (Ok tt, mk_pm (Some (YMap [("host", YStr "localhost"); ("port", YInt 5432)]))
                  (Some (YInt 2, YInt 10))).
Proof.
  destruct (initialize_pool_keeps_config (YMap [("host", YStr "localhost"); ("port", YInt 5432)])
              default_pool_config (YInt 2) (YInt 10)
              ltac:(eexists _, _, _; split; [reflexivity|]; split; reflexivity)
              eq_refl eq_refl) as (_ & H & _).
  exact (H _).
Defined.
